(** * auto_pdf_reader: a shallow embedding of the three batch scripts

    The repository holds three independent command-line scripts:
    - [PDF_batch_read.py]   extracts the text of every PDF below a directory,
      asks a chat-completion endpoint for a summary and writes it next to the
      PDF as a Markdown file;
    - [PDF_batch_rename.py] guesses a title for every PDF and renames the file
      after the sanitized title;
    - [MD_summarize.py]     reads the Markdown summaries back and asks the
      endpoint for one combined report.

    Python text is a sequence of code points, so a [str] is a [list N] here.
    Everything the scripts obtain from the outside (the Unicode character
    database, the PDF parser, the HTTP endpoint, the operating system) is a
    field of an explicit environment record; the file system and the console
    are an explicit world that every effectful function threads through. *)

From Stdlib Require Import NArith ZArith QArith List String Ascii Lia.
From stdpp Require Import base option list gmap strings pretty.

Close Scope Q_scope.
Open Scope N_scope.
Open Scope list_scope.

(* ===================================================================== *)
(** ** Python values: text, exceptions, results                          *)
(* ===================================================================== *)

Module Py.

(** A Python [str]: its code points, in order. *)
Abbreviation pystr := (list N).

(** An ASCII literal of the source, as code points. *)
Definition lit (s : string) : pystr :=
  map N_of_ascii (list_ascii_of_string s).

(** [str(n)] for a non-negative integer. *)
Definition str_of_nat (n : nat) : pystr := lit (pretty n).

Definition NL : N := 10.          (* '\n' *)
Definition UNDERSCORE : N := 95.  (* '_'  *)
Definition HYPHEN : N := 45.      (* '-'  *)
Definition SLASH : N := 47.       (* '/'  *)
Definition DOT : N := 46.         (* '.'  *)

Definition str_eqb (a b : pystr) : bool := bool_decide (a = b).

(** [s.startswith(p)] and [s.endswith(p)]. *)
Fixpoint startswith (s p : pystr) {struct p} : bool :=
  match p, s with
  | [], _ => true
  | _ :: _, [] => false
  | c :: p', d :: s' => (c =? d) && startswith s' p'
  end.

Definition endswith (s p : pystr) : bool := startswith (rev s) (rev p).

(** [s.split(sep)] for a one-character separator: never empty, one more
    piece than there are separators. *)
Fixpoint split_on (sep : N) (s : pystr) : list pystr :=
  match s with
  | [] => [[]]
  | c :: r =>
      if c =? sep then [] :: split_on sep r
      else match split_on sep r with
           | [] => [[c]]
           | p :: ps => (c :: p) :: ps
           end
  end.

(** [sep.join(parts)]. *)
Fixpoint join_with (sep : pystr) (parts : list pystr) : pystr :=
  match parts with
  | [] => []
  | [p] => p
  | p :: ps => p ++ sep ++ join_with sep ps
  end.

Fixpoint drop_while (f : N -> bool) (s : pystr) : pystr :=
  match s with
  | [] => []
  | c :: r => if f c then drop_while f r else s
  end.

(** [s.strip(chars)] with the stripped characters given as a predicate. *)
Definition strip_by (f : N -> bool) (s : pystr) : pystr :=
  rev (drop_while f (rev (drop_while f s))).

(** [s.rfind(c)]: the index of the last occurrence, if any. *)
Fixpoint rfind (c : N) (s : pystr) : option nat :=
  match s with
  | [] => None
  | d :: r =>
      match rfind c r with
      | Some i => Some (S i)
      | None => if d =? c then Some 0%nat else None
      end
  end.

(** The exceptions the scripts can meet.  The first four are subclasses of
    [requests.exceptions.RequestException] (the JSON one since requests
    2.27); every constructor is an [Exception]. *)
Inductive exn : Type :=
| ConnectionError
| Timeout
| HTTPError (status : N)
| JSONDecodeError
| KeyError
| IndexError
| TypeError
| OSError
| UnicodeEncodeError
| FitzError.

Definition is_RequestException (e : exn) : bool :=
  match e with
  | ConnectionError | Timeout | HTTPError _ | JSONDecodeError => true
  | _ => false
  end.

Definition is_KeyError (e : exn) : bool :=
  match e with KeyError => true | _ => false end.

(** The result of evaluating an expression: a value or a raised exception. *)
Inductive result (A : Type) : Type :=
| Ok (a : A)
| Raise (e : exn).
Arguments Ok {A} a.
Arguments Raise {A} e.

Definition rbind {A B} (r : result A) (k : A -> result B) : result B :=
  match r with
  | Ok a => k a
  | Raise e => Raise e
  end.

(** The Unicode character database and the [re]/[str] methods built on it,
    as far as the scripts consult them. *)
Record unicode := {
  uc_isalnum : N -> bool;      (* what [\w] matches besides the underscore *)
  uc_isdigit : N -> bool;      (* [str.isdigit] on one character *)
  uc_isspace : N -> bool;      (* what [str.strip()] removes *)
  uc_nfkc : pystr -> pystr;    (* [unicodedata.normalize('NFKC', s)] *)
  uc_lower : pystr -> pystr;   (* [str.lower()] *)
  uc_ci_match : N -> N -> bool (* pattern literal against a character under [re.I] *)
}.

End Py.
Export Py.

Declare Scope py_scope.
Delimit Scope py_scope with py.
Notation "x <- r ;; k" := (rbind r (fun x => k))
(at level 100, r at next level, right associativity) : py_scope.

(** The database restricted to Basic Latin: it agrees with Python on every
  ASCII character and is what the concrete runs below evaluate with. *)
Module Ascii.

Definition between (lo hi c : N) : bool := (lo <=? c) && (c <=? hi).

Definition isdigit (c : N) : bool := between 48 57 c.
Definition isupper (c : N) : bool := between 65 90 c.
Definition islower (c : N) : bool := between 97 122 c.
Definition isalnum (c : N) : bool := isdigit c || isupper c || islower c.
(* space, \t \n \v \f \r and the separators \x1c..\x1f *)
Definition isspace (c : N) : bool := (c =? 32) || between 9 13 c || between 28 31 c.
Definition lower_char (c : N) : N := if isupper c then c + 32 else c.

Definition tables : unicode := {|
  uc_isalnum := isalnum;
  uc_isdigit := isdigit;
  uc_isspace := isspace;
  uc_nfkc := fun s => s;
  uc_lower := map lower_char;
  uc_ci_match := fun p c => lower_char c =? p
|}.

Definition is_ascii (s : pystr) : bool := forallb (fun c => c <? 128) s.

(** A database is faithful on Basic Latin when it gives these answers there. *)
Record faithful (U : unicode) : Prop := {
  f_isalnum : forall c, c < 128 -> uc_isalnum U c = isalnum c;
  f_isdigit : forall c, c < 128 -> uc_isdigit U c = isdigit c;
  f_isspace : forall c, c < 128 -> uc_isspace U c = isspace c;
  f_nfkc : forall s, is_ascii s = true -> uc_nfkc U s = s;
  f_lower : forall s, is_ascii s = true -> uc_lower U s = map lower_char s
}.

End Ascii.

(* ===================================================================== *)
(** ** [os.path] on POSIX                                                 *)
(* ===================================================================== *)

Module PosixPath.

(** [os.path.splitext]: the extension starts at the last dot of the last
    component, unless that component has only dots before it. *)
Definition splitext (p : pystr) : pystr * pystr :=
  match rfind DOT p with
  | None => (p, [])
  | Some dotIndex =>
      let filenameIndex :=
        match rfind SLASH p with Some sepIndex => S sepIndex | None => 0%nat end in
      if (filenameIndex <=? dotIndex)%nat
         && existsb (fun c => negb (c =? DOT))
              (take (dotIndex - filenameIndex) (drop filenameIndex p))
      then (take dotIndex p, drop dotIndex p)
      else (p, [])
  end.

(** [os.path.basename]. *)
Definition basename (p : pystr) : pystr :=
  match rfind SLASH p with
  | Some i => drop (S i) p
  | None => p
  end.

(** [os.path.dirname]. *)
Definition dirname (p : pystr) : pystr :=
  let head := match rfind SLASH p with Some i => take (S i) p | None => [] end in
  if forallb (fun c => c =? SLASH) head then head
  else rev (drop_while (fun c => c =? SLASH) (rev head)).

(** [os.path.join(a, b)]. *)
Definition join (a b : pystr) : pystr :=
  if startswith b [SLASH] then b
  else if bool_decide (a = []) || endswith a [SLASH] then a ++ b
  else a ++ [SLASH] ++ b.

End PosixPath.

(* ===================================================================== *)
(** ** JSON values as Python objects                                      *)
(* ===================================================================== *)

Module Json.

(** What [response.json()] returns.  An object keeps its members in document
    order; a number is a rational (an integer or a finite float). *)
#[warnings="-register-all"]
Inductive json : Type :=
| JNull
| JBool (b : bool)
| JNum (q : Q)
| JStr (s : pystr)
| JArr (items : list json)
| JObj (members : list (pystr * json)).

(** [d[key]] on a dict built by [json.loads]: the last member with that name. *)
Fixpoint dict_get (members : list (pystr * json)) (key : pystr) : option json :=
  match members with
  | [] => None
  | (k, v) :: rest =>
      match dict_get rest key with
      | Some v' => Some v'
      | None => if str_eqb k key then Some v else None
      end
  end.

(** [v[key]] for a string key. *)
Definition getitem (v : json) (key : pystr) : result json :=
  match v with
  | JObj members =>
      match dict_get members key with
      | Some x => Ok x
      | None => Raise KeyError
      end
  | _ => Raise TypeError
  end.

(** [v[0]]. *)
Definition getitem0 (v : json) : result json :=
  match v with
  | JArr (x :: _) => Ok x
  | JArr [] => Raise IndexError
  | JStr (c :: _) => Ok (JStr [c])
  | JStr [] => Raise IndexError
  | JObj _ => Raise KeyError
  | _ => Raise TypeError
  end.

(** Python truthiness: what [if v:] tests. *)
Definition truthy (v : json) : bool :=
  match v with
  | JNull => false
  | JBool b => b
  | JNum q => negb (Qnum q =? 0)%Z
  | JStr s => negb (bool_decide (s = []))
  | JArr l => match l with [] => false | _ => true end
  | JObj m => match m with [] => false | _ => true end
  end.

End Json.
Export Json.

(* ===================================================================== *)
(** ** The [requests] library                                             *)
(* ===================================================================== *)

Module Requests.

Record request := {
  req_url : pystr;
  req_headers : list (pystr * pystr);
  req_json : json
}.

(** A received response: its status code and, when the body is JSON, the
    decoded body. *)
Record response := {
  status_code : N;
  body : option json
}.

(** [response.raise_for_status()]: 4xx and 5xx raise [HTTPError]. *)
Definition raise_for_status (r : response) : result unit :=
  if (400 <=? status_code r) && (status_code r <? 600)
  then Raise (HTTPError (status_code r))
  else Ok tt.

(** [response.json()]. *)
Definition response_json (r : response) : result json :=
  match body r with
  | Some v => Ok v
  | None => Raise JSONDecodeError
  end.

(** [v["choices"][0]["message"]["content"]], the subscript chain both API
    clients apply to the decoded body. *)
Definition reply_content (v : json) : result json :=
  (choices <- getitem v (lit "choices") ;;
   first <- getitem0 choices ;;
   message <- getitem first (lit "message") ;;
   getitem message (lit "content"))%py.

End Requests.
Export Requests.

(* ===================================================================== *)
(** ** The PDF parser (PyMuPDF), as far as the scripts look at a document *)
(* ===================================================================== *)

Module Fitz.

(** A span of [page.get_text("dict")]: its text and font size. *)
Record span := { span_text : pystr; span_size : Q }.
Record line := { line_spans : list span }.
(** A block; image blocks have no ["lines"] key. *)
Record block := { block_lines : option (list line) }.

(** A loaded page: what [get_text("text")] and [get_text("dict")["blocks"]]
    give, each of which may raise. *)
Record page := {
  get_text : result pystr;
  get_text_dict_blocks : result (list block)
}.

(** An opened document: what [load_page(i)] gives for each page number. *)
Definition document := list (result page).

End Fitz.
Export Fitz.

(* ===================================================================== *)
(** ** The world the scripts run in                                       *)
(* ===================================================================== *)

Module World.

(** What a path names: a directory, or a file with its content (the bytes
    of a PDF, or the text of a Markdown file). *)
Inductive entry : Type :=
| Dir
| File (content : pystr).

(** What the scripts print, one constructor per [print] call (or run of
    consecutive calls) of the source; the messages are fixed text around the
    listed arguments. *)
Inductive message : Type :=
| MsgParseFailed (path : pystr) (e : exn)
| MsgApiFailed (e : exn)
| MsgApiBadShape (e : exn)
| MsgWriteFailed (path : pystr) (e : exn)
| MsgRenameFailed (path : pystr) (e : exn)
| MsgProcessFailed (path : pystr) (e : exn)
| MsgFound (n : nat)
| MsgStats (a b c : nat)
| MsgDirMissing (dir : pystr)
| MsgKeyUnset
| MsgSkipFile (path : pystr)
| MsgReadFile (path : pystr)
| MsgReadFailed (path : pystr) (e : exn)
| MsgStart (dir : pystr)
| MsgNoMarkdown
| MsgRequesting
| MsgSaved (path : pystr)
| MsgSaveFailed (e : exn)
| MsgNotSaved
| MsgDone.


(** What a run does to the outside, in order. *)
Inductive event : Type :=
| Printed (m : message)
| FitzOpened (path : pystr)
| Posted (r : request)
| OpenedForWrite (path : pystr)
| Wrote (path : pystr) (data : pystr)
| Renamed (src dst : pystr)
| ReadText (path : pystr).

Record world := {
  fs : gmap pystr entry;
  log : list event
}.

(** What the outside answers. *)
Record env := {
  unicode_db : unicode;
  (* the document in a file with this content, or the parser's exception *)
  fitz_parse : pystr -> result document;
  (* what [requests.post] returns or raises for a request *)
  requests_post : request -> result response;
  (* [open(path, "w")] is refused *)
  open_w_denied : pystr -> bool;
  (* writing this data to this path fails in the operating system *)
  write_denied : pystr -> pystr -> bool;
  (* [os.rename(src, dst)] is refused *)
  rename_denied : pystr -> pystr -> bool;
  (* [os.walk(root)]: (dirpath, filenames) in traversal order *)
  os_walk : gmap pystr entry -> pystr -> list (pystr * list pystr);
  (* reading this path as text fails *)
  read_denied : pystr -> bool;
  (* [glob.glob(pattern)] for [directory/*.md] *)
  glob_md : gmap pystr entry -> pystr -> list pystr;
  (* [datetime.now().strftime("%Y%m%d_%H%M%S")] *)
  timestamp : pystr
}.

(** Effectful code: a function of the world that returns a value or raises. *)
Definition M (A : Type) : Type := world -> result A * world.

Definition ret {A} (a : A) : M A := fun w => (Ok a, w).

Definition bind {A B} (m : M A) (k : A -> M B) : M B :=
  fun w => match m w with
           | (Ok a, w') => k a w'
           | (Raise e, w') => (Raise e, w')
           end.

(** [try: m  except <class> as e: h e]; an exception outside the class
    propagates. *)
Definition try_except {A} (m : M A) (class : exn -> bool) (h : exn -> M A) : M A :=
  fun w => match m w with
           | (Ok a, w') => (Ok a, w')
           | (Raise e, w') => if class e then h e w' else (Raise e, w')
           end.

(** [except Exception]. *)
Definition is_Exception (e : exn) : bool := true.

Definition lift {A} (r : result A) : M A := fun w => (r, w).

Definition emit (e : event) : M unit :=
  fun w => (Ok tt, {| fs := fs w; log := log w ++ [e] |}).

Definition print (m : message) : M unit := emit (Printed m).

(** [os.path.exists(path)]. *)
Definition path_exists (path : pystr) : M bool :=
  fun w => (Ok (bool_decide (is_Some (fs w !! path))), w).

(** [os.path.isdir(path)]. *)
Definition path_isdir (path : pystr) : M bool :=
  fun w => (Ok match fs w !! path with Some Dir => true | _ => false end, w).

(** [requests.post(...)]. *)
Definition post (E : env) (r : request) : M response :=
  fun w =>
    (requests_post E r, {| fs := fs w; log := log w ++ [Posted r] |}).

(** [fitz.open(path)]. *)
Definition fitz_open (E : env) (path : pystr) : M document :=
  fun w =>
    let w' := {| fs := fs w; log := log w ++ [FitzOpened path] |} in
    match fs w !! path with
    | Some (File content) => (fitz_parse E content, w')
    | _ => (Raise FitzError, w')
    end.

(** UTF-8 can encode every code point but the surrogates. *)
Definition utf8_encodable (s : pystr) : bool :=
  forallb (fun c => negb ((0xD800 <=? c) && (c <=? 0xDFFF))) s.

(** [open(path, "w", encoding="utf-8")]: creates or empties the file; a
    directory cannot be opened. *)
Definition open_w (E : env) (path : pystr) : M unit :=
  fun w =>
    if open_w_denied E path then (Raise OSError, w)
    else match fs w !! path with
         | Some Dir => (Raise OSError, w)
         | _ => (Ok tt, {| fs := <[path := File []]> (fs w);
                           log := log w ++ [OpenedForWrite path] |})
         end.

(** [f.write(v)] on a file opened by [open_w]: a value that is not a [str]
    is a [TypeError], a [str] is encoded and appended. *)
Definition file_write (E : env) (path : pystr) (v : json) : M unit :=
  fun w =>
    match v with
    | JStr data =>
        if negb (utf8_encodable data) then (Raise UnicodeEncodeError, w)
        else if write_denied E path data then (Raise OSError, w)
        else match fs w !! path with
             | Some (File old) =>
                 (Ok tt, {| fs := <[path := File (old ++ data)]> (fs w);
                            log := log w ++ [Wrote path data] |})
             | _ => (Raise OSError, w)
             end
    | _ => (Raise TypeError, w)
    end.

(** [open(path, 'r', encoding='utf-8').read()]. *)
Definition read_text (E : env) (path : pystr) : M pystr :=
  fun w =>
    let w' := {| fs := fs w; log := log w ++ [ReadText path] |} in
    match fs w !! path with
    | Some (File content) =>
        if read_denied E path then (Raise OSError, w') else (Ok content, w')
    | _ => (Raise OSError, w')
    end.

(** [os.walk(root)] as the scripts call it (no [onerror]): a top that is not
    a directory cannot be listed, the error is swallowed and nothing is
    yielded. *)
Definition walk (E : env) (root : pystr) : M (list (pystr * list pystr)) :=
  fun w =>
    match fs w !! root with
    | Some Dir => (Ok (os_walk E (fs w) root), w)
    | _ => (Ok [], w)
    end.

(** The collection loop both PDF scripts start with: every file name of the
    walk that ends in [.pdf] once lowered, joined to its directory. *)
Definition collect_pdfs (U : unicode) (walk : list (pystr * list pystr)) : list pystr :=
  flat_map
    (fun '(dirpath, filenames) =>
       map (PosixPath.join dirpath)
         (filter (fun f => endswith (uc_lower U f) (lit ".pdf") = true) filenames))
    walk.

End World.
Export World.

Notation "x <- m ;;; k" := (bind m (fun x => k))
  (at level 100, m at next level, right associativity) : py_scope.
Notation "m ;;; k" := (bind m (fun _ => k))
  (at level 100, right associativity) : py_scope.

(* ===================================================================== *)
(** ** PDF_batch_rename.py                                                *)
(* ===================================================================== *)

Module BatchRename.

(** The character class [[^\w\u4e00-\u9fa5-]] of [sanitize_filename]. *)
Definition is_word (U : unicode) (c : N) : bool :=
  uc_isalnum U c || (c =? UNDERSCORE).

Definition illegal (U : unicode) (c : N) : bool :=
  negb (is_word U c || ((0x4e00 <=? c) && (c <=? 0x9fa5)) || (c =? HYPHEN)).

(** [re.sub(r'[^\w\u4e00-\u9fa5-]', '_', s)]. *)
Definition replace_illegal (U : unicode) (s : pystr) : pystr :=
  map (fun c => if illegal U c then UNDERSCORE else c) s.

(** [re.sub(r'_+', '_', s)]: every run of underscores becomes one. *)
Fixpoint merge_underscores (s : pystr) : pystr :=
  match s with
  | [] => []
  | c :: r =>
      match r with
      | d :: _ =>
          if (c =? UNDERSCORE) && (d =? UNDERSCORE) then merge_underscores r
          else c :: merge_underscores r
      | [] => [c]
      end
  end.

Definition is_underscore (c : N) : bool := c =? UNDERSCORE.

Definition sanitize_filename (U : unicode) (title : pystr) : pystr :=
  let cleaned := uc_nfkc U title in
  let cleaned := replace_illegal U cleaned in
  let cleaned := merge_underscores cleaned in
  take 200 (strip_by is_underscore cleaned).

(** *** Title extraction *)

(** A literal of the pattern matched, ignoring case, at the start of [s]. *)
Fixpoint match_literal (U : unicode) (pat s : pystr) : bool :=
  match pat, s with
  | [], _ => true
  | _ :: _, [] => false
  | p :: pat', c :: s' => uc_ci_match U p c && match_literal U pat' s'
  end.

(** The literal found somewhere in [s]. *)
Fixpoint search_literal (U : unicode) (pat s : pystr) : bool :=
  match_literal U pat s
  || match s with
     | [] => false
     | _ :: s' => search_literal U pat s'
     end.

(** [.*c] matched at the start of [s]: a [c] before any newline. *)
Fixpoint dot_star_then (U : unicode) (c : N) (s : pystr) : bool :=
  match s with
  | [] => false
  | d :: r => uc_ci_match U c d || (negb (d =? NL) && dot_star_then U c r)
  end.

Definition DI : N := 0x7b2c.  (* the first character of the page-number pattern *)
Definition YE : N := 0x9875.  (* its last character *)

(** [DI .* YE] found somewhere in [s]. *)
Fixpoint search_page_number (U : unicode) (s : pystr) : bool :=
  match s with
  | [] => false
  | d :: r => (uc_ci_match U DI d && dot_star_then U YE r) || search_page_number U r
  end.

(** [re.search(r'page|DI.*YE|confidential', line, re.I)] as a truth value. *)
Definition header_footer (U : unicode) (line : pystr) : bool :=
  search_literal U (lit "page") line
  || search_page_number U line
  || search_literal U (lit "confidential") line.

(** [line.isdigit()]. *)
Definition str_isdigit (U : unicode) (s : pystr) : bool :=
  negb (bool_decide (s = [])) && forallb (uc_isdigit U) s.

(** [[ln.strip() for ln in text.split('\n') if ln.strip()]]. *)
Definition stripped_lines (U : unicode) (text : pystr) : list pystr :=
  filter (fun ln => ln <> []) (map (strip_by (uc_isspace U)) (split_on NL text)).

(** The loop over [lines[:10]], given the lines it iterates over. *)
Fixpoint first_title_line (U : unicode) (lines : list pystr) : option pystr :=
  match lines with
  | [] => None
  | line :: rest =>
      if (10 <=? length line)%nat && (length line <=? 200)%nat
         && negb (str_isdigit U line)
      then if header_footer U line then first_title_line U rest
           else Some line
      else first_title_line U rest
  end.

(** The [(text, size)] pairs collected from the blocks that have lines. *)
Definition font_sizes (blocks : list block) : list (pystr * Q) :=
  flat_map
    (fun b =>
       match block_lines b with
       | Some ls =>
           flat_map (fun l => map (fun sp => (span_text sp, span_size sp)) (line_spans l)) ls
       | None => []
       end)
    blocks.

Definition Qgt_bool (a b : Q) : bool := negb (Qle_bool a b).

(** [max(items, key=lambda x: x[1])] on a non-empty list: the first item of
    greatest size. *)
Fixpoint max_by_size (best : pystr * Q) (items : list (pystr * Q)) : pystr * Q :=
  match items with
  | [] => best
  | x :: r => if Qgt_bool (snd x) (snd best) then max_by_size x r else max_by_size best r
  end.

(** The body of the page loop on a loaded page: the line scan, then the
    largest-font span of the same page. *)
Definition scan_page (U : unicode) (pg : page) : result (option pystr) :=
  (text <- get_text pg ;;
   match first_title_line U (take 10 (stripped_lines U text)) with
   | Some line => Ok (Some line)
   | None =>
       blocks <- get_text_dict_blocks pg ;;
       match font_sizes blocks with
       | [] => Ok None
       | x :: r =>
           let largest := max_by_size x r in
           if Qgt_bool (snd largest) 11 then Ok (Some (fst largest)) else Ok None
       end
   end)%py.

(** The page loop, over the pages it loads. *)
Fixpoint scan_pages (U : unicode) (pages : list (result page)) : result (option pystr) :=
  match pages with
  | [] => Ok None
  | p :: rest =>
      (pg <- p ;;
       t <- scan_page U pg ;;
       match t with
       | Some title => Ok (Some title)
       | None => scan_pages U rest
       end)%py
  end.

(** The [with fitz.open(pdf_path) as doc:] block inside the [try]. *)
Definition title_block (E : env) (pdf_path : pystr) : M (option pystr) :=
  (doc <- fitz_open E pdf_path ;;;
   lift (scan_pages (unicode_db E) (take 2 doc)))%py.

Definition extract_pdf_title (E : env) (pdf_path : pystr) : M (option pystr) :=
  try_except
    (title_block E pdf_path)
    is_Exception
    (fun e => print (MsgParseFailed pdf_path e) ;;; ret None)%py.

(** *** Renaming *)

(** The path tried for a given counter: [new_name_<counter>.pdf]. *)
Definition numbered_path (dir_path new_name : pystr) (counter : nat) : pystr :=
  PosixPath.join dir_path (new_name ++ lit "_" ++ str_of_nat counter ++ lit ".pdf").

(** The [while os.path.exists(new_path)] loop, run for at most [fuel]
    iterations; [None] when the fuel runs out. *)
Fixpoint free_path (files : gmap pystr entry) (dir_path new_name : pystr)
    (fuel counter : nat) (new_path : pystr) : option pystr :=
  if bool_decide (is_Some (files !! new_path)) then
    match fuel with
    | O => None
    | S fuel' =>
        free_path files dir_path new_name fuel' (S counter)
          (numbered_path dir_path new_name counter)
    end
  else Some new_path.

(** [os.rename(src, dst)] towards a free destination. *)
Definition os_rename (E : env) (src dst : pystr) : M unit :=
  fun w =>
    match fs w !! src with
    | Some e =>
        if rename_denied E src dst then (Raise OSError, w)
        else (Ok tt, {| fs := <[dst := e]> (delete src (fs w));
                        log := log w ++ [Renamed src dst] |})
    | None => (Raise OSError, w)
    end.

(** The part of [rename_pdf_file] before the [try]: the path the file is
    to get.  The loop cannot outlast one iteration per existing path (see
    [free_path_total]), so the fallback of [default] is never taken. *)
Definition target_path (files : gmap pystr entry) (pdf_path new_name : pystr) : pystr :=
  let dir_path := PosixPath.dirname pdf_path in
  let new_path := PosixPath.join dir_path (new_name ++ lit ".pdf") in
  default new_path
    (free_path files dir_path new_name (S (size files)) 1 new_path).

Definition rename_pdf_file (E : env) (pdf_path new_name : pystr) : M bool :=
  fun w =>
    let new_path := target_path (fs w) pdf_path new_name in
    try_except
      (os_rename E pdf_path new_path ;;; ret true)%py
      is_Exception
      (fun e => print (MsgRenameFailed pdf_path e) ;;; ret false)%py
      w.

Record stats := { renamed : nat; failed : nat; skipped : nat }.

Definition count_renamed (s : stats) : stats :=
  {| renamed := S (renamed s); failed := failed s; skipped := skipped s |}.
Definition count_failed (s : stats) : stats :=
  {| renamed := renamed s; failed := S (failed s); skipped := skipped s |}.
Definition count_skipped (s : stats) : stats :=
  {| renamed := renamed s; failed := failed s; skipped := S (skipped s) |}.

(** The body of the loop of [process_folder] for one path. *)
Definition process_file (E : env) (pdf_path : pystr) (st : stats) : M stats :=
  try_except
    (title <- extract_pdf_title E pdf_path ;;;
     match title with
     | None | Some [] => ret (count_skipped st)
     | Some title =>
         match sanitize_filename (unicode_db E) title with
         | [] => ret (count_skipped st)
         | clean_title =>
             ok <- rename_pdf_file E pdf_path clean_title ;;;
             if ok : bool then ret (count_renamed st) else ret (count_failed st)
         end
     end)%py
    is_Exception
    (fun e => print (MsgProcessFailed pdf_path e) ;;; ret (count_failed st))%py.

Fixpoint process_files (E : env) (pdf_files : list pystr) (st : stats) : M stats :=
  match pdf_files with
  | [] => ret st
  | pdf_path :: rest =>
      (st' <- process_file E pdf_path st ;;; process_files E rest st')%py
  end.

Definition process_folder (E : env) (root_dir : pystr) : M stats :=
  (listing <- walk E root_dir ;;;
   let pdf_files := collect_pdfs (unicode_db E) listing in
   print (MsgFound (length pdf_files)) ;;;
   st <- process_files E pdf_files {| renamed := 0; failed := 0; skipped := 0 |} ;;;
   print (MsgStats (renamed st) (failed st) (skipped st)) ;;;
   ret st)%py.

End BatchRename.

(* ===================================================================== *)
(** ** PDF_batch_read.py                                                  *)
(* ===================================================================== *)

Module BatchRead.

(** The constants at the top of the script, which the user edits. *)
Record config := {
  API_URL : pystr;
  DEEPSEEK_API_KEY : pystr;
  INPUT_DIR : pystr
}.

(** The values the script ships with. *)
Definition shipped : config := {|
  API_URL := lit "https://api.siliconflow.cn/v1/chat/completions";
  DEEPSEEK_API_KEY := lit "your-api-key";
  INPUT_DIR := lit "/path/to/your/pdf"
|}.

(** [page.get_text()] of every page, in order. *)
Fixpoint page_texts (doc : document) : result (list pystr) :=
  match doc with
  | [] => Ok []
  | p :: rest =>
      (pg <- p ;;
       text <- get_text pg ;;
       texts <- page_texts rest ;;
       Ok (text :: texts))%py
  end.

Definition parse_pdf (E : env) (pdf_path : pystr) : M (option pystr) :=
  try_except
    (doc <- fitz_open E pdf_path ;;;
     full_text <- lift (page_texts doc) ;;;
     ret (Some (join_with [NL] full_text)))%py
    is_Exception
    (fun e => print (MsgParseFailed pdf_path e) ;;; ret None)%py.

(** The number of characters of the text that go into the prompt. *)
Definition PROMPT_BUDGET : nat := N.to_nat 65535.

(** The fixed part of the prompt, up to and including the line break after
    [Context: ]. *)
Definition PROMPT_HEAD : pystr :=
  join_with [NL]
    [ [];
      [];
      lit "You are a helpful assistant. Context information is below.";
      [];
      lit "Please tell me the title of the article, the institution(s) of authors, and the publish year of the article.";
      [];
      lit "Then, using the provided context information, write a comprehensive summary of the artical. Use prior knowledge only if the given context didn't provide enough information. Espectially, notice the problem/difficulties that this work deals with, and how it solves the problems.";
      [];
      lit "Reply in zh-CN. For key terms or specialized nouns, please provide the original term in parentheses.";
      [];
      lit "Context: ";
      [] ].

Definition build_prompt (text : pystr) : pystr :=
  PROMPT_HEAD ++ take PROMPT_BUDGET text.

(** The request [summarize_text] posts. *)
Definition summary_request (C : config) (text : pystr) : request := {|
  req_url := API_URL C;
  req_headers := [(lit "Authorization", lit "Bearer " ++ DEEPSEEK_API_KEY C)];
  req_json :=
    JObj [ (lit "model", JStr (lit "deepseek-ai/DeepSeek-R1"));
           (lit "messages",
            JArr [ JObj [ (lit "role", JStr (lit "user"));
                          (lit "content", JStr (build_prompt text)) ] ]) ]
|}.

(** Returns the reply, or [None] (here [JNull]) after any exception. *)
Definition summarize_text (E : env) (C : config) (text : pystr) : M json :=
  try_except
    (response <- post E (summary_request C text) ;;;
     lift (v <- response_json response ;; reply_content v)%py)%py
    is_Exception
    (fun e => print (MsgApiFailed e) ;;; ret JNull)%py.

Inductive outcome : Type := Success | Failed | Skipped.

(** The path of the summary of a PDF. *)
Definition md_path_of (pdf_path : pystr) : pystr :=
  fst (PosixPath.splitext pdf_path) ++ lit ".md".

Definition HEADER_TITLE : pystr :=
  [0x23; 0x20; 0x6587; 0x732e; 0x603b; 0x7ed3; 0xa; 0xa].

Definition header_source (pdf_path : pystr) : pystr :=
  [0x2a; 0x2a; 0x6e90; 0x6587; 0x4ef6; 0x2a; 0x2a; 0x3a; 0x20; 0x60]
  ++ PosixPath.basename pdf_path ++ [0x60; 0xa; 0xa].

(** The [try] statement that ends [process_single_file]: open the summary
    file, write the two header lines and the summary. *)
Definition save_block (E : env) (md_path pdf_path : pystr) (summary : json) : M outcome :=
  try_except
    (open_w E md_path ;;;
     file_write E md_path (JStr HEADER_TITLE) ;;;
     file_write E md_path (JStr (header_source pdf_path)) ;;;
     file_write E md_path summary ;;;
     ret Success)%py
    is_Exception
    (fun e => print (MsgWriteFailed md_path e) ;;; ret Failed)%py.

Definition process_single_file (E : env) (C : config) (pdf_path : pystr) : M outcome :=
  let md_path := md_path_of pdf_path in
  (present <- path_exists md_path ;;;
   if present : bool then ret Skipped
   else
     pdf_text <- parse_pdf E pdf_path ;;;
     match pdf_text with
     | None | Some [] => ret Failed
     | Some pdf_text =>
         summary <- summarize_text E C pdf_text ;;;
         if negb (truthy summary) then ret Failed
         else save_block E md_path pdf_path summary
     end)%py.

(** The [stats] dictionary, by key. *)
Record stats := { n_success : nat; n_failed : nat; n_skipped : nat }.

(** [stats[result] += 1]. *)
Definition count (st : stats) (r : outcome) : stats :=
  match r with
  | Success => {| n_success := S (n_success st); n_failed := n_failed st; n_skipped := n_skipped st |}
  | Failed => {| n_success := n_success st; n_failed := S (n_failed st); n_skipped := n_skipped st |}
  | Skipped => {| n_success := n_success st; n_failed := n_failed st; n_skipped := S (n_skipped st) |}
  end.

Fixpoint process_files (E : env) (C : config) (pdf_files : list pystr) (st : stats) : M stats :=
  match pdf_files with
  | [] => ret st
  | pdf_path :: rest =>
      (r <- process_single_file E C pdf_path ;;;
       process_files E C rest (count st r))%py
  end.

Definition batch_process_pdfs (E : env) (C : config) (root_dir : pystr) : M stats :=
  (listing <- walk E root_dir ;;;
   let pdf_files := collect_pdfs (unicode_db E) listing in
   print (MsgFound (length pdf_files)) ;;;
   st <- process_files E C pdf_files {| n_success := 0; n_failed := 0; n_skipped := 0 |} ;;;
   print (MsgStats (n_success st) (n_skipped st) (n_failed st)) ;;;
   ret st)%py.

(** The script run as a program. *)
Definition main (E : env) (C : config) : M stats :=
  batch_process_pdfs E C (INPUT_DIR C).

End BatchRead.

(* ===================================================================== *)
(** ** MD_summarize.py                                                    *)
(* ===================================================================== *)

Module MdSummarize.

(** The constants at the top of the script, which the user edits. *)
Record config := {
  MARKDOWN_DIRECTORY : pystr;
  API_BASE : pystr;
  API_KEY : pystr;
  MODEL : pystr
}.

(** The values the script ships with. *)
Definition shipped : config := {|
  MARKDOWN_DIRECTORY := lit "/path/to/your/markdown";
  API_BASE := lit "https://api.siliconflow.cn/v1";
  API_KEY := lit "your-api-key";
  MODEL := lit "deepseek-ai/DeepSeek-R1"
|}.

(** The fields of a [MarkdownAnalyzer]. *)
Record analyzer := {
  api_key : pystr;
  api_base : pystr;
  model : pystr;
  headers : list (pystr * pystr)
}.

(** [MarkdownAnalyzer.__init__]. *)
Definition new_analyzer (key base mdl : pystr) : analyzer := {|
  api_key := key;
  api_base := match base with
              | [] => lit "https://api.siliconflow.cn/v1"
              | _ => base
              end;
  model := mdl;
  headers := [ (lit "Authorization", lit "Bearer " ++ key);
               (lit "Content-Type", lit "application/json") ]
|}.

(** One entry of the list [read_markdown_files] returns. *)
Record md_file := {
  filename : pystr;
  content : pystr;
  path : pystr
}.

(** The loop of [read_markdown_files] over the paths of the glob. *)
Fixpoint read_files (E : env) (paths : list pystr) (md_files : list md_file)
    : M (list md_file) :=
  match paths with
  | [] => ret md_files
  | file_path :: rest =>
      let name := PosixPath.basename file_path in
      if startswith name (lit "research_report")
      then (print (MsgSkipFile file_path) ;;; read_files E rest md_files)%py
      else
        (md_files' <-
           try_except
             (text <- read_text E file_path ;;;
              print (MsgReadFile file_path) ;;;
              ret (md_files ++ [ {| filename := name; content := text; path := file_path |} ]))
             is_Exception
             (fun e => print (MsgReadFailed file_path e) ;;; ret md_files) ;;;
         read_files E rest md_files')%py
  end.

Definition read_markdown_files (E : env) (directory : pystr) : M (list md_file) :=
  fun w => read_files E (glob_md E (fs w) directory) [] w.

(** The request [call_llm_api] posts. *)
Definition llm_request (A : analyzer) (prompt : pystr) : request := {|
  req_url := api_base A ++ lit "/chat/completions";
  req_headers := headers A;
  req_json :=
    JObj [ (lit "model", JStr (model A));
           (lit "messages",
            JArr [ JObj [ (lit "role", JStr (lit "user"));
                          (lit "content", JStr prompt) ] ]) ]
|}.

(** Returns the reply, or the empty string after a [RequestException] or a
    [KeyError]; any other exception leaves the function. *)
Definition call_llm_api (E : env) (A : analyzer) (prompt : pystr) : M json :=
  try_except
    (response <- post E (llm_request A prompt) ;;;
     lift (raise_for_status response) ;;;
     lift (result <- response_json response ;; reply_content result)%py)%py
    (fun e => is_RequestException e || is_KeyError e)
    (fun e =>
       if is_RequestException e
       then (print (MsgApiFailed e) ;;; ret (JStr []))%py
       else (print (MsgApiBadShape e) ;;; ret (JStr []))%py).

Definition PAPER : pystr := [35770; 25991; 32].

(** [papers_content] after the loop over [enumerate(md_files, i)]. *)
Fixpoint papers_content (i : nat) (md_files : list md_file) : pystr :=
  match md_files with
  | [] => []
  | file_info :: rest =>
      ([NL] ++ lit "=== " ++ PAPER ++ str_of_nat i ++ lit ": " ++ filename file_info
         ++ lit " ===" ++ [NL])
      ++ (content file_info ++ [NL])
      ++ papers_content (S i) rest
  end.

Definition INDENT : pystr := lit "        ".

Definition REPORT_PROMPT_HEAD : pystr :=
  [NL] ++ INDENT
  ++ [20320; 26159; 19968; 20301; 19987; 19994; 30340; 30740; 31350; 20998;
      26512; 24072; 12290; 35831; 20998; 26512; 20197; 19979; 35770; 25991;
      24635; 32467; 20869; 23481; 65292; 29983; 25104; 19968; 20221; 35813;
      36873; 39064; 30340; 30740; 31350; 25253; 21578; 12290]
  ++ [NL] ++ INDENT ++ [NL] ++ INDENT
  ++ [35770; 25991; 20869; 23481; 65306]
  ++ [NL] ++ INDENT.

Definition REPORT_PROMPT_TAIL : pystr :=
  [NL] ++ INDENT ++ [NL] ++ INDENT
  ++ [35831; 30830; 20445; 25253; 21578; 20869; 23481; 35814; 23454; 12289;
      36923; 36753; 28165; 26224; 12289; 20998; 26512; 28145; 20837; 12290;
      20351; 29992; 20013; 25991; 25776; 20889; 12290]
  ++ [NL] ++ INDENT
  ++ [22914; 26524; 28041; 21450; 24341; 29992; 65292; 35831; 26631; 26126;
      24341; 29992; 20869; 23481; 26469; 33258; 21738; 19968; 31687; 35770;
      25991; 12290]
  ++ [NL] ++ INDENT.

Definition analyze_papers (E : env) (A : analyzer) (md_files : list md_file) : M json :=
  let prompt := REPORT_PROMPT_HEAD ++ papers_content 1 md_files ++ REPORT_PROMPT_TAIL in
  (print MsgRequesting ;;;
   call_llm_api E A prompt)%py.

Definition save_report (E : env) (report : json) (output_path : pystr) : M unit :=
  try_except
    (open_w E output_path ;;;
     file_write E output_path report ;;;
     print (MsgSaved output_path))%py
    is_Exception
    (fun e => print (MsgSaveFailed e)).

Definition APPENDIX_HEAD : pystr :=
  [10; 10; 45; 45; 45; 10; 10; 21442; 32771; 35770; 25991; 21015; 34920; 65288;
   32534; 21495; 19982; 25991; 20214; 21517; 23545; 24212; 65289; 65306; 10].

(** The appendix after the loop over [enumerate(md_files, i)]. *)
Fixpoint appendix_entries (i : nat) (md_files : list md_file) : pystr :=
  match md_files with
  | [] => []
  | file_info :: rest =>
      ([NL] ++ PAPER ++ str_of_nat i ++ lit ": " ++ filename file_info ++ [NL])
      ++ appendix_entries (S i) rest
  end.

(** [report += appendix]: defined on a [str] only. *)
Definition add_str (report : json) (appendix : pystr) : result json :=
  match report with
  | JStr s => Ok (JStr (s ++ appendix))
  | _ => Raise TypeError
  end.

(** What [main] does once both checks have passed. *)
Definition report_run (E : env) (C : config) : M unit :=
  let directory := MARKDOWN_DIRECTORY C in
  let output_path :=
    PosixPath.join directory (lit "research_report_" ++ timestamp E ++ lit ".md") in
  let A := new_analyzer (API_KEY C) (API_BASE C) (MODEL C) in
  (print (MsgStart directory) ;;;
   md_files <- read_markdown_files E directory ;;;
   match md_files with
   | [] => print MsgNoMarkdown
   | _ =>
       print (MsgFound (length md_files)) ;;;
       report <- analyze_papers E A md_files ;;;
       report <- (if truthy report
                  then lift (add_str report (APPENDIX_HEAD ++ appendix_entries 1 md_files))
                  else ret report) ;;;
       if negb (truthy report) then print MsgNotSaved
       else (save_report E report output_path ;;; print MsgDone)
   end)%py.

Definition main (E : env) (C : config) : M unit :=
  let directory := MARKDOWN_DIRECTORY C in
  (isdir <- path_isdir directory ;;;
   if negb isdir then print (MsgDirMissing directory)
   else if str_eqb (API_KEY C) (lit "your-api-key-here") then print MsgKeyUnset
   else report_run E C)%py.

End MdSummarize.

(* ===================================================================== *)
(** ** The specification's vocabulary                                     *)
(* ===================================================================== *)

Module Spec.

(** The names a rename to [T] may end up with, in the order they are tried:
    [T.pdf], [T_1.pdf], [T_2.pdf], ... in the directory of the file. *)
Definition candidate (pdf_path T : pystr) (k : nat) : pystr :=
  match k with
  | O => PosixPath.join (PosixPath.dirname pdf_path) (T ++ lit ".pdf")
  | S _ => BatchRename.numbered_path (PosixPath.dirname pdf_path) T k
  end.

(** A line heuristic (a) accepts: 10 to 200 characters, not all digits, no
    header or footer marker. *)
Definition qualifies (U : unicode) (line : pystr) : bool :=
  (10 <=? length line)%nat && (length line <=? 200)%nat
  && negb (BatchRename.str_isdigit U line)
  && negb (BatchRename.header_footer U line).

(** Heuristic (a) as the specification words it: the first accepted line
    among the text lines of the given pages. *)
Definition heuristic_a (U : unicode) (texts : list pystr) : option pystr :=
  find (qualifies U) (flat_map (BatchRename.stripped_lines U) texts).

(** Heuristic (a) on one page as the code has it: the first accepted line
    among the first ten non-blank lines of the page. *)
Definition line_title (U : unicode) (text : pystr) : option pystr :=
  find (qualifies U) (take 10 (BatchRename.stripped_lines U text)).

(** Heuristic (c) on one page: the text of the first span that no span of
    the page exceeds in size, if its size exceeds 11. *)
Definition font_title (blocks : list block) : option pystr :=
  let spans := BatchRename.font_sizes blocks in
  match find (fun sp => forallb (fun sp' => Qle_bool (snd sp') (snd sp)) spans) spans with
  | Some sp => if BatchRename.Qgt_bool (snd sp) 11 then Some (fst sp) else None
  | None => None
  end.

(** The first of a list of attempts that yields. *)
Fixpoint first_some {A} (attempts : list (option A)) : option A :=
  match attempts with
  | [] => None
  | Some a :: _ => Some a
  | None :: rest => first_some rest
  end.

(** The title of a document whose pages load, given as (text, blocks) pairs:
    per page, the line scan and then the font fallback of that page. *)
Definition title_by_page (U : unicode) (views : list (pystr * list block)) : option pystr :=
  first_some
    (flat_map (fun v => [line_title U (fst v); font_title (snd v)]) views).

(** The document whose pages load with these texts and blocks. *)
Definition document_of (views : list (pystr * list block)) : document :=
  map (fun v => Ok {| get_text := Ok (fst v); get_text_dict_blocks := Ok (snd v) |}) views.

(** [s.rstrip('_')]. *)
Definition rstrip_underscores (s : pystr) : pystr :=
  rev (drop_while BatchRename.is_underscore (rev s)).

(** A character [sanitize_filename] lets through. *)
Definition legal (U : unicode) (c : N) : Prop := BatchRename.illegal U c = false.

(** No two underscores in a row. *)
Fixpoint no_double (s : pystr) : bool :=
  match s with
  | [] => true
  | c :: r =>
      match r with
      | d :: _ => negb ((c =? UNDERSCORE) && (d =? UNDERSCORE)) && no_double r
      | [] => true
      end
  end.

(** The prompt of a posted request: [messages[0]["content"]] of its body. *)
Definition prompt_of (r : request) : option pystr :=
  match getitem (req_json r) (lit "messages") with
  | Ok messages =>
      match getitem0 messages with
      | Ok first =>
          match getitem first (lit "content") with
          | Ok (JStr prompt) => Some prompt
          | _ => None
          end
      | _ => None
      end
  | _ => None
  end.

(** The ways [process_single_file] fails before it opens the summary file. *)
Inductive early_failure (E : env) (C : BatchRead.config) (pdf_path : pystr) (w : world)
    : Prop :=
| ParseFailure (w1 : world) :
    BatchRead.parse_pdf E pdf_path w = (Ok None, w1) ->
    early_failure E C pdf_path w
| EmptyExtraction (w1 : world) :
    BatchRead.parse_pdf E pdf_path w = (Ok (Some []), w1) ->
    early_failure E C pdf_path w
| ApiFailure (text : pystr) (w1 : world) (summary : json) (w2 : world) :
    BatchRead.parse_pdf E pdf_path w = (Ok (Some text), w1) ->
    BatchRead.summarize_text E C text w1 = (Ok summary, w2) ->
    truthy summary = false ->
    early_failure E C pdf_path w
| OpenRefused :
    open_w_denied E (BatchRead.md_path_of pdf_path) = true ->
    early_failure E C pdf_path w.

(** [process_single_file] gets as far as opening the summary file: the text
    and the reply are there and the open is not refused. *)
Definition reaches_open (E : env) (C : BatchRead.config) (pdf_path : pystr) (w : world)
    : Prop :=
  exists (text : pystr) (w1 : world) (summary : json) (w2 : world),
    BatchRead.parse_pdf E pdf_path w = (Ok (Some text), w1)
    /\ text <> []
    /\ BatchRead.summarize_text E C text w1 = (Ok summary, w2)
    /\ truthy summary = true
    /\ open_w_denied E (BatchRead.md_path_of pdf_path) = false.

End Spec.

(* ===================================================================== *)
(** ** Sample environments and worlds                                     *)
(* ===================================================================== *)

Module Samples.

(** An outside that refuses nothing, parses nothing and cannot be reached. *)
Definition offline : env := {|
  unicode_db := Ascii.tables;
  fitz_parse := fun _ => Raise FitzError;
  requests_post := fun _ => Raise ConnectionError;
  open_w_denied := fun _ => false;
  write_denied := fun _ _ => false;
  rename_denied := fun _ _ => false;
  os_walk := fun _ _ => [];
  read_denied := fun _ => false;
  glob_md := fun _ _ => [];
  timestamp := lit "20240101_000000"
|}.

(** The same outside with a parser that reads every PDF as [doc]. *)
Definition with_parser (E : env) (doc : document) : env := {|
  unicode_db := unicode_db E;
  fitz_parse := fun _ => Ok doc;
  requests_post := requests_post E;
  open_w_denied := open_w_denied E;
  write_denied := write_denied E;
  rename_denied := rename_denied E;
  os_walk := os_walk E;
  read_denied := read_denied E;
  glob_md := glob_md E;
  timestamp := timestamp E
|}.

(** The same outside with an endpoint that answers every request with [r]. *)
Definition with_endpoint (E : env) (r : result response) : env := {|
  unicode_db := unicode_db E;
  fitz_parse := fitz_parse E;
  requests_post := fun _ => r;
  open_w_denied := open_w_denied E;
  write_denied := write_denied E;
  rename_denied := rename_denied E;
  os_walk := os_walk E;
  read_denied := read_denied E;
  glob_md := glob_md E;
  timestamp := timestamp E
|}.

(** The same outside with a walk that lists [names] in directory [dir]. *)
Definition with_walk (E : env) (dir : pystr) (names : list pystr) : env := {|
  unicode_db := unicode_db E;
  fitz_parse := fitz_parse E;
  requests_post := requests_post E;
  open_w_denied := open_w_denied E;
  write_denied := write_denied E;
  rename_denied := rename_denied E;
  os_walk := fun _ _ => [(dir, names)];
  read_denied := read_denied E;
  glob_md := fun _ _ => map (PosixPath.join dir) names;
  timestamp := timestamp E
|}.

(** A page of plain text without layout information. *)
Definition text_page (text : pystr) : result page :=
  Ok {| get_text := Ok text; get_text_dict_blocks := Ok [] |}.

Definition world_of (files : list (pystr * entry)) : world :=
  {| fs := list_to_map files; log := [] |}.

(** A directory where [T.pdf] and [T_1.pdf] are taken. *)
Definition crowded : world :=
  world_of [ (lit "/d", Dir);
             (lit "/d/x.pdf", File [1]);
             (lit "/d/T.pdf", File [2]);
             (lit "/d/T_1.pdf", File [3]) ].

(** A directory whose only PDF is already named after its title. *)
Definition TITLE : pystr := lit "A Study of Something".
Definition CLEAN : pystr := lit "A_Study_of_Something".
Definition titled_doc : document := [ text_page TITLE ].
Definition renamed_once : world :=
  world_of [ (lit "/d", Dir);
             (lit "/d/A_Study_of_Something.pdf", File [1]) ].

(** A directory with [a.pdf], already summarized, and [b.pdf]. *)
Definition half_done : world :=
  world_of [ (lit "/d", Dir);
             (lit "/d/a.pdf", File [1]);
             (lit "/d/a.md", File (lit "old summary"));
             (lit "/d/b.pdf", File [2]) ].

(** A reply of the expected shape with the given content. *)
Definition reply (status : N) (content : json) : result response :=
  Ok {| status_code := status;
        body := Some (JObj [ (lit "choices",
                              JArr [ JObj [ (lit "message",
                                             JObj [ (lit "content", content) ]) ] ]) ]) |}.


(** The directory of [half_done] walked, with a parser that reads one page
    of text and an endpoint that answers as expected. *)
Definition working : env :=
  with_walk
    (with_endpoint (with_parser offline [ text_page (lit "some text") ])
       (reply 200 (JStr (lit "a summary"))))
    (lit "/d") [ lit "a.pdf"; lit "a.md"; lit "b.pdf" ].

(** A first page with a short heading in large type and no line long enough
    for heuristic (a); a second page that starts with a proper title line. *)
Definition cover_views : list (pystr * list block) :=
  [ (lit "Report",
     [ {| block_lines := Some [ {| line_spans := [ {| span_text := lit "Report";
                                                      span_size := 20 |} ] |} ] |} ]);
    (lit "A proper title line of the paper", []) ].

(** A page whose eleventh line is the first one heuristic (a) accepts. *)
Definition eleven_lines : pystr :=
  join_with [NL] (repeat (lit "short") 10 ++ [ lit "The title on line eleven" ]).

(** The aggregator's directory: one summary. *)
Definition summaries : world :=
  world_of [ (lit "/d", Dir); (lit "/d/x.md", File (lit "summary of x")) ].

Definition aggregator_env : env := with_walk offline (lit "/d") [ lit "x.md" ].

(** The shipped aggregator configuration, pointed at an existing directory. *)
Definition pointed : MdSummarize.config := {|
  MdSummarize.MARKDOWN_DIRECTORY := lit "/d";
  MdSummarize.API_BASE := MdSummarize.API_BASE MdSummarize.shipped;
  MdSummarize.API_KEY := MdSummarize.API_KEY MdSummarize.shipped;
  MdSummarize.MODEL := MdSummarize.MODEL MdSummarize.shipped
|}.

(** A well-formed 200 response whose list of choices is empty. *)
Definition no_choices : result response :=
  Ok {| status_code := 200; body := Some (JObj [ (lit "choices", JArr []) ]) |}.

(** A title of 201 characters whose 200th is a space. *)
Definition LONG_TITLE : pystr := repeat 97 199 ++ lit " b".

(** A text one character longer than the prompt budget. *)
Definition LONG_TEXT : pystr := repeat 97 (S BatchRead.PROMPT_BUDGET).

End Samples.

(* ===================================================================== *)
(** ** Vocabulary of the further properties                               *)
(* ===================================================================== *)

Module Props.

(** A prefix a file name can be appended to: empty, or ending in a slash. *)
Definition is_prefix_dir (pre : pystr) : Prop :=
  pre = [] \/ exists p0, pre = p0 ++ [SLASH].

(** The form of what [os.path.dirname] returns: slashes only, or something
    that does not end in a slash. *)
Definition dir_form (d : pystr) : Prop :=
  forallb (fun c => c =? SLASH) d = true \/ endswith d [SLASH] = false.

(** The strings [rename_pdf_file] may give a file as its name. *)
Definition new_basename (T : pystr) (k : nat) : pystr :=
  match k with
  | O => T ++ lit ".pdf"
  | S _ => T ++ lit "_" ++ str_of_nat k ++ lit ".pdf"
  end.




(** The path [main] of the aggregator writes its report to. *)
Definition report_path (E : env) (C : MdSummarize.config) : pystr :=
  PosixPath.join (MdSummarize.MARKDOWN_DIRECTORY C)
    (lit "research_report_" ++ timestamp E ++ lit ".md").


(** The entry of paper [i] in the appendix of the report. *)
Definition appendix_label (i : nat) (name : pystr) : pystr :=
  MdSummarize.PAPER ++ str_of_nat i ++ lit ": " ++ name.

Definition is_posted (e : event) : bool :=
  match e with Posted _ => true | _ => false end.

(** The number of requests among some events. *)
Definition posted (evs : list event) : nat :=
  length (filter (fun e => is_posted e = true) evs).

(** A path of the glob that [read_markdown_files] keeps: its name does not
    start with [research_report] and it can be read as a file. *)
Definition kept_summary (E : env) (files : gmap pystr entry) (p : pystr) : bool :=
  negb (startswith (PosixPath.basename p) (lit "research_report"))
  && match files !! p with
     | Some (File _) => negb (read_denied E p)
     | _ => false
     end.

End Props.

(* ===================================================================== *)
(** ** Further sample environments and worlds                             *)
(* ===================================================================== *)

Module Fixtures.

(** A title that tries to leave the directory. *)
Definition ESCAPING_TITLE : pystr := lit "../../etc/A Study of Something.v2".


(** A page whose third non-blank line is the first to qualify and whose
    layout cannot be read. *)
Definition opaque_page : page := {|
  get_text := Ok (lit "12345678901234567890
Page 3 of the proceedings
An Introduction to Things");
  get_text_dict_blocks := Raise FitzError
|}.

(** A page without a qualifying line and with spans of several sizes. *)
Definition headline_blocks : list block :=
  [ {| block_lines := None |};
    {| block_lines :=
         Some [ {| line_spans := [ {| span_text := lit "body"; span_size := 10 |};
                                   {| span_text := lit "Big"; span_size := 18 |} ] |};
                {| line_spans := [ {| span_text := lit "Also big"; span_size := 18 |} ] |} ] |} ].

Definition headline_page : page := {|
  get_text := Ok (lit "Vol. 3");
  get_text_dict_blocks := Ok headline_blocks
|}.

(** The aggregator's directory with two summaries and a report of an
    earlier run. *)
Definition with_stale_report : world :=
  Samples.world_of
    [ (lit "/d", Dir);
      (lit "/d/x.md", File (lit "summary of x"));
      (lit "/d/y.md", File (lit "summary of y"));
      (lit "/d/research_report_20240101_000000.md", File (lit "old report")) ].

Definition stale_env : env :=
  Samples.with_walk Samples.offline (lit "/d")
    [ lit "x.md"; lit "y.md"; lit "research_report_20240101_000000.md" ].

(** The same with an endpoint that answers. *)
Definition answering_env : env :=
  Samples.with_endpoint stale_env (Samples.reply 200 (JStr (lit "the report"))).

Definition two_papers : list MdSummarize.md_file :=
  [ {| MdSummarize.filename := lit "x.md"; MdSummarize.content := lit "summary of x";
       MdSummarize.path := lit "/d/x.md" |};
    {| MdSummarize.filename := lit "y.md"; MdSummarize.content := lit "summary of y";
       MdSummarize.path := lit "/d/y.md" |} ].

End Fixtures.

(* ===================================================================== *)
(** * Properties                                                          *)
(* ===================================================================== *)

(** ** Text *)

Module TextFacts.

Lemma lit_inj (a b : string) : lit a = lit b -> a = b.
Proof.
  unfold lit. intros H.
  rewrite <- (string_of_list_ascii_of_string a), <- (string_of_list_ascii_of_string b).
  f_equal. revert H. generalize (list_ascii_of_string b).
  induction (list_ascii_of_string a) as [|x xs IH]; intros [|y ys] H;
    simpl in H; try discriminate; [reflexivity|].
  injection H as Hxy Hrest. f_equal; [|by apply IH].
  rewrite <- (ascii_N_embedding x), <- (ascii_N_embedding y). by rewrite Hxy.
Qed.

Lemma str_of_nat_inj (m n : nat) : str_of_nat m = str_of_nat n -> m = n.
Proof. unfold str_of_nat. intros H. apply lit_inj in H. by apply (inj pretty). Qed.

Lemma join_inj (dir a b : pystr) :
  startswith a [SLASH] = startswith b [SLASH] ->
  PosixPath.join dir a = PosixPath.join dir b -> a = b.
Proof.
  unfold PosixPath.join. intros ->.
  destruct (startswith b [SLASH]); [done|].
  destruct (bool_decide (dir = []) || endswith dir [SLASH]); intros H.
  - by apply app_inv_head in H.
  - apply app_inv_head in H. by apply app_inv_head in H.
Qed.

Lemma is_ascii_forall (s : pystr) :
  Ascii.is_ascii s = true -> forall c, In c s -> c < 128.
Proof.
  unfold Ascii.is_ascii. rewrite forallb_forall. intros H c Hc.
  apply N.ltb_lt. by apply H.
Qed.

End TextFacts.

(** ** Renaming *)

Module RenameFacts.
Import BatchRename TextFacts.

Lemma numbered_path_inj (dir name : pystr) (j k : nat) :
  numbered_path dir name j = numbered_path dir name k -> j = k.
Proof.
  unfold numbered_path. intros H. apply join_inj in H.
  - apply app_inv_head in H. apply app_inv_head in H.
    apply app_inv_tail in H. by apply str_of_nat_inj.
  - destruct name as [|c name]; simpl; reflexivity.
Qed.

(** A free numbered name within reach of the fuel makes the loop stop. *)
Lemma free_path_reaches (files : gmap pystr entry) (dir name : pystr) (fuel : nat) :
  forall (counter : nat) (p : pystr),
    (exists k, (counter <= k < counter + fuel)%nat
               /\ files !! numbered_path dir name k = None) ->
    is_Some (free_path files dir name fuel counter p).
Proof.
  induction fuel as [|fuel IH]; intros counter p (k & Hk & Hfree); simpl.
  - lia.
  - case_bool_decide as Hp; [|by eexists].
    destruct (decide (k = counter)) as [->|Hne].
    + destruct fuel; simpl; rewrite bool_decide_eq_false_2; eauto;
        rewrite Hfree; by intros [? ?].
    + apply IH. exists k. split; [lia|done].
Qed.

(** Among any [size files + 1] numbered names one is free. *)
Lemma free_numbered_exists (files : gmap pystr entry) (dir name : pystr) (from : nat) :
  exists k, (from <= k < from + S (size files))%nat
            /\ files !! numbered_path dir name k = None.
Proof.
  set (l := numbered_path dir name <$> seq from (S (size files))).
  assert (NoDup l) as Hnd.
  { apply NoDup_fmap_2_strong; [|apply NoDup_seq].
    intros ? ? _ _. apply numbered_path_inj. }
  destruct (decide (Forall (fun q => is_Some (files !! q)) l)) as [Hall|Hnot].
  - exfalso.
    assert (list_to_set (C := gset pystr) l ⊆ dom files) as Hsub.
    { intros q Hq. apply elem_of_list_to_set in Hq. apply elem_of_dom.
      rewrite Forall_forall in Hall. by apply Hall. }
    apply subseteq_size in Hsub.
    rewrite size_list_to_set in Hsub by done.
    rewrite size_dom in Hsub. unfold l in Hsub.
    rewrite length_fmap, length_seq in Hsub. lia.
  - apply not_Forall_Exists in Hnot; [|intros ?; apply _].
    apply Exists_exists in Hnot as (q & Hq & Hfree).
    unfold l in Hq. apply list_elem_of_fmap in Hq as (k & -> & Hk).
    apply elem_of_seq in Hk. exists k. split; [lia|].
    simpl in Hfree. by apply eq_None_not_Some.
Qed.

(** The loop of [rename_pdf_file] always ends with the fuel it is given. *)
Lemma free_path_total (files : gmap pystr entry) (dir name p : pystr) :
  is_Some (free_path files dir name (S (size files)) 1 p).
Proof. apply free_path_reaches, free_numbered_exists. Qed.

(** What the loop returns is free, and everything it tried before was not. *)
Lemma free_path_first (files : gmap pystr entry) (dir name : pystr) (fuel : nat) :
  forall (counter : nat) (p q : pystr),
    free_path files dir name fuel counter p = Some q ->
    files !! q = None
    /\ (q = p
        \/ is_Some (files !! p)
           /\ exists k, (counter <= k)%nat /\ q = numbered_path dir name k
                /\ forall j, (counter <= j < k)%nat ->
                             is_Some (files !! numbered_path dir name j)).
Proof.
  induction fuel as [|fuel IH]; intros counter p q; simpl.
  - case_bool_decide as Hp; [done|]. intros [= <-].
    split; [by apply eq_None_not_Some | by left].
  - case_bool_decide as Hp.
    + intros H. apply IH in H as [Hq [->|(Hocc & k & Hk & -> & Hbefore)]].
      * split; [done|]. right. split; [done|].
        exists counter. split; [lia|]. split; [done|]. intros j ?. lia.
      * split; [done|]. right. split; [done|].
        exists k. split; [lia|]. split; [done|].
        intros j Hj. destruct (decide (j = counter)) as [->|]; [done|].
        apply Hbefore. lia.
    + intros [= <-]. split; [by apply eq_None_not_Some | by left].
Qed.

(** With the candidates [0 .. n-1] taken and candidate [n] free, the loop
    settles on candidate [n]. *)
Lemma target_path_first_free (files : gmap pystr entry) (pdf_path T : pystr) (n : nat) :
  (forall j, (j < n)%nat -> is_Some (files !! Spec.candidate pdf_path T j)) ->
  files !! Spec.candidate pdf_path T n = None ->
  target_path files pdf_path T = Spec.candidate pdf_path T n.
Proof.
  intros Hocc Hfree. unfold target_path.
  destruct (free_path_total files (PosixPath.dirname pdf_path) T
              (PosixPath.join (PosixPath.dirname pdf_path) (T ++ lit ".pdf")))
    as [q Hq].
  rewrite Hq. simpl.
  apply free_path_first in Hq as [Hqfree [->|(Hp & k & Hk & -> & Hbefore)]].
  - destruct n as [|n]; [done|].
    specialize (Hocc 0%nat ltac:(lia)). simpl in Hocc.
    rewrite Hqfree in Hocc. by destruct Hocc.
  - destruct n as [|n].
    { simpl in Hfree. rewrite Hfree in Hp. by destruct Hp. }
    destruct k as [|k]; [lia|].
    destruct (Nat.lt_trichotomy k n) as [Hlt|[->|Hgt]]; [| done |].
    + specialize (Hocc (S k) ltac:(lia)). simpl in Hocc.
      rewrite Hqfree in Hocc. by destruct Hocc.
    + specialize (Hbefore (S n) ltac:(lia)). simpl in Hfree.
      rewrite Hfree in Hbefore. by destruct Hbefore.
Qed.


Lemma os_rename_moves (E : env) (w : world) (src dst : pystr) (e : entry) :
  fs w !! src = Some e ->
  rename_denied E src dst = false ->
  os_rename E src dst w
  = (Ok tt, {| fs := <[dst := e]> (delete src (fs w));
               log := log w ++ [Renamed src dst] |}).
Proof. intros Hsrc Hok. unfold os_rename. by rewrite Hsrc, Hok. Qed.

Lemma rename_pdf_file_moves (E : env) (w : world) (pdf_path T dst : pystr) (e : entry) :
  target_path (fs w) pdf_path T = dst ->
  fs w !! pdf_path = Some e ->
  rename_denied E pdf_path dst = false ->
  rename_pdf_file E pdf_path T w
  = (Ok true, {| fs := <[dst := e]> (delete pdf_path (fs w));
                 log := log w ++ [Renamed pdf_path dst] |}).
Proof.
  intros Htarget Hsrc Hok. unfold rename_pdf_file, try_except, bind.
  rewrite Htarget, (os_rename_moves E w pdf_path dst e) by done. reflexivity.
Qed.

(** [extract_pdf_title] on a file the parser reads and whose scan succeeds. *)
Lemma extract_pdf_title_ok (E : env) (w : world) (pdf_path c : pystr)
    (doc : document) (t : option pystr) :
  fs w !! pdf_path = Some (File c) ->
  fitz_parse E c = Ok doc ->
  scan_pages (unicode_db E) (take 2 doc) = Ok t ->
  extract_pdf_title E pdf_path w
  = (Ok t, {| fs := fs w; log := log w ++ [FitzOpened pdf_path] |}).
Proof.
  intros Hfile Hparse Hscan.
  unfold extract_pdf_title, title_block, try_except, bind, fitz_open, lift.
  by rewrite Hfile, Hparse, Hscan.
Qed.



(** C9. A file that already carries the name it is to get meets itself in the
    existence check: it is renamed to [T_1.pdf], and a batch step over a file
    already named after its sanitized title renames it again. *)
Theorem rename_collides_with_itself (E : env) (w : world) (pdf_path T c title : pystr)
    (doc : document) (st : stats) :
  pdf_path = Spec.candidate pdf_path T 0 ->
  fs w !! pdf_path = Some (File c) ->
  fs w !! Spec.candidate pdf_path T 1 = None ->
  rename_denied E pdf_path (Spec.candidate pdf_path T 1) = false ->
  fitz_parse E c = Ok doc ->
  scan_pages (unicode_db E) (take 2 doc) = Ok (Some title) ->
  title <> [] ->
  sanitize_filename (unicode_db E) title = T ->
  T <> [] ->
  rename_pdf_file E pdf_path T w
  = (Ok true,
     {| fs := <[Spec.candidate pdf_path T 1 := File c]> (delete pdf_path (fs w));
        log := log w ++ [Renamed pdf_path (Spec.candidate pdf_path T 1)] |})
  /\ process_file E pdf_path st w
     = (Ok (count_renamed st),
        {| fs := <[Spec.candidate pdf_path T 1 := File c]> (delete pdf_path (fs w));
           log := (log w ++ [FitzOpened pdf_path])
                  ++ [Renamed pdf_path (Spec.candidate pdf_path T 1)] |}).
Proof.
  intros Hself Hsrc Hfree Hok Hparse Hscan Htitle Hclean HT.
  assert (target_path (fs w) pdf_path T = Spec.candidate pdf_path T 1) as Ht.
  { apply target_path_first_free; [|done].
    intros j Hj. assert (j = 0%nat) as -> by lia.
    rewrite <- Hself, Hsrc. by eexists. }
  split; [by apply rename_pdf_file_moves|].
  unfold process_file, try_except, bind.
  rewrite (extract_pdf_title_ok E w pdf_path c doc (Some title)) by done.
  destruct title as [|t0 title]; [done|].
  rewrite Hclean. destruct T as [|T0 T]; [done|].
  rewrite (rename_pdf_file_moves E _ pdf_path (T0 :: T)
             (Spec.candidate pdf_path (T0 :: T) 1) (File c)) by done.
  reflexivity.
Qed.

Lemma rename_collides_with_itself_witness :
  rename_pdf_file (Samples.with_parser Samples.offline Samples.titled_doc)
    (lit "/d/A_Study_of_Something.pdf") Samples.CLEAN Samples.renamed_once
  = (Ok true,
     {| fs := <[lit "/d/A_Study_of_Something_1.pdf" := File [1]]>
                (delete (lit "/d/A_Study_of_Something.pdf") (fs Samples.renamed_once));
        log := [Renamed (lit "/d/A_Study_of_Something.pdf")
                        (lit "/d/A_Study_of_Something_1.pdf")] |})
  /\ process_file (Samples.with_parser Samples.offline Samples.titled_doc)
       (lit "/d/A_Study_of_Something.pdf")
       {| renamed := 0; failed := 0; skipped := 0 |} Samples.renamed_once
     = (Ok {| renamed := 1; failed := 0; skipped := 0 |},
        {| fs := <[lit "/d/A_Study_of_Something_1.pdf" := File [1]]>
                   (delete (lit "/d/A_Study_of_Something.pdf") (fs Samples.renamed_once));
           log := [FitzOpened (lit "/d/A_Study_of_Something.pdf");
                   Renamed (lit "/d/A_Study_of_Something.pdf")
                           (lit "/d/A_Study_of_Something_1.pdf")] |}).
Proof.
  apply (rename_collides_with_itself
           (Samples.with_parser Samples.offline Samples.titled_doc)
           Samples.renamed_once (lit "/d/A_Study_of_Something.pdf")
           Samples.CLEAN [1] Samples.TITLE Samples.titled_doc
           {| renamed := 0; failed := 0; skipped := 0 |}).
  - vm_compute. reflexivity.
  - vm_compute. reflexivity.
  - vm_compute. reflexivity.
  - reflexivity.
  - reflexivity.
  - vm_compute. reflexivity.
  - discriminate.
  - vm_compute. reflexivity.
  - discriminate.
Defined.









Example unreadable_pdf_is_skipped :
  title_block Samples.offline (lit "/d/x.pdf") Samples.crowded
  = (Raise FitzError, {| fs := fs Samples.crowded; log := [FitzOpened (lit "/d/x.pdf")] |})
  /\ process_file Samples.offline (lit "/d/x.pdf")
       {| renamed := 0; failed := 0; skipped := 0 |} Samples.crowded
     = (Ok {| renamed := 0; failed := 0; skipped := 1 |},
        {| fs := fs Samples.crowded;
           log := [FitzOpened (lit "/d/x.pdf");
                   Printed (MsgParseFailed (lit "/d/x.pdf") FitzError)] |}).
Proof. split; reflexivity. Qed.

End RenameFacts.

(** ** Sanitizing *)

Module SanitizeFacts.
Import BatchRename TextFacts.

(** On Basic Latin every faithful database sanitizes alike. *)
Lemma sanitize_filename_ascii (U : unicode) (s : pystr) :
  Ascii.faithful U ->
  Ascii.is_ascii s = true ->
  sanitize_filename U s = sanitize_filename Ascii.tables s.
Proof.
  intros HU Hs. unfold sanitize_filename.
  rewrite (Ascii.f_nfkc U HU s Hs). simpl uc_nfkc.
  do 3 f_equal. unfold replace_illegal. apply map_ext_in.
  intros c Hc. unfold illegal, is_word.
  by rewrite (Ascii.f_isalnum U HU c (is_ascii_forall s Hs c Hc)).
Qed.

(** *** What a second pass does *)

Lemma drop_while_split (f : N -> bool) (s : pystr) :
  exists pre, s = pre ++ drop_while f s /\ Forall (fun c => f c = true) pre.
Proof.
  induction s as [|c r (pre & Hr & Hpre)]; simpl.
  - by exists [].
  - destruct (f c) eqn:Hc.
    + exists (c :: pre). split; [by rewrite Hr at 1|by constructor].
    + by exists [].
Qed.

(** The first character, if any, is not one that [drop_while] drops. *)
Definition head_kept (f : N -> bool) (s : pystr) : Prop :=
  match s with
  | [] => True
  | c :: _ => f c = false
  end.

Lemma drop_while_head_kept (f : N -> bool) (s : pystr) :
  head_kept f (drop_while f s).
Proof.
  induction s as [|c r IH]; simpl; [done|].
  destruct (f c) eqn:Hc; [done|]. simpl. done.
Qed.

Lemma drop_while_id (f : N -> bool) (s : pystr) :
  head_kept f s -> drop_while f s = s.
Proof. destruct s as [|c r]; simpl; [done|]. by intros ->. Qed.

Lemma head_kept_app (f : N -> bool) (s t : pystr) :
  head_kept f (s ++ t) -> head_kept f s.
Proof. by destruct s. Qed.

Lemma head_kept_take (f : N -> bool) (n : nat) (s : pystr) :
  head_kept f s -> head_kept f (take n s).
Proof. destruct n, s; simpl; done. Qed.

(** Stripping the end keeps the first character in place. *)
Lemma rstrip_head_kept (f : N -> bool) (s : pystr) :
  head_kept f s -> head_kept f (rev (drop_while f (rev s))).
Proof.
  intros Hs. destruct (drop_while_split f (rev s)) as (pre & Hsplit & _).
  apply (f_equal (@rev N)) in Hsplit. rewrite rev_involutive, rev_app_distr in Hsplit.
  rewrite Hsplit in Hs. by apply head_kept_app in Hs.
Qed.

Lemma strip_head_kept (f : N -> bool) (s : pystr) : head_kept f (strip_by f s).
Proof. apply rstrip_head_kept, drop_while_head_kept. Qed.

Lemma Forall_drop_while (P : N -> Prop) (f : N -> bool) (s : pystr) :
  Forall P s -> Forall P (drop_while f s).
Proof.
  induction 1 as [|c r Hc Hr IH]; simpl; [done|].
  destruct (f c); [done|by constructor].
Qed.

Lemma Forall_strip (P : N -> Prop) (f : N -> bool) (s : pystr) :
  Forall P s -> Forall P (strip_by f s).
Proof.
  intros H. unfold strip_by.
  apply Forall_rev, Forall_drop_while, Forall_rev, Forall_drop_while, H.
Qed.

Lemma Forall_merge (P : N -> Prop) (s : pystr) :
  Forall P s -> Forall P (merge_underscores s).
Proof.
  induction 1 as [|c r Hc Hr IH]; [done|].
  simpl. destruct r as [|d r']; [by repeat constructor|].
  destruct ((c =? UNDERSCORE) && (d =? UNDERSCORE)); [done|by constructor].
Qed.

Lemma underscore_legal (U : unicode) : Spec.legal U UNDERSCORE.
Proof.
  unfold Spec.legal, illegal, is_word.
  rewrite N.eqb_refl, orb_true_r. reflexivity.
Qed.

Lemma replace_illegal_legal (U : unicode) (s : pystr) :
  Forall (Spec.legal U) (replace_illegal U s).
Proof.
  unfold replace_illegal. apply Forall_forall. intros c Hc.
  apply list_elem_of_fmap in Hc as (c0 & -> & _).
  destruct (illegal U c0) eqn:Hc0; [apply underscore_legal|done].
Qed.

Lemma replace_illegal_id (U : unicode) (s : pystr) :
  Forall (Spec.legal U) s -> replace_illegal U s = s.
Proof.
  induction 1 as [|c r Hc Hr IH]; [done|].
  unfold replace_illegal in *. simpl. rewrite Hc. by f_equal.
Qed.

(** A sanitized title holds at most 200 characters, all of them legal. *)
Lemma sanitize_filename_bounds (U : unicode) (title : pystr) :
  (length (sanitize_filename U title) <= 200)%nat
  /\ Forall (Spec.legal U) (sanitize_filename U title).
Proof.
  unfold sanitize_filename. split.
  - rewrite length_take. lia.
  - apply Forall_take, Forall_strip, Forall_merge, replace_illegal_legal.
Qed.

(** Merging keeps the first character. *)
Lemma merge_underscores_head (c : N) (r : pystr) :
  exists ms, merge_underscores (c :: r) = c :: ms.
Proof.
  revert c. induction r as [|d r IH]; intros c; simpl.
  - by eexists.
  - destruct ((c =? UNDERSCORE) && (d =? UNDERSCORE)) eqn:Hcd.
    + apply andb_true_iff in Hcd as [Hc Hd]. apply N.eqb_eq in Hc, Hd. subst.
      apply IH.
    + by eexists.
Qed.

Lemma no_double_merge (s : pystr) : Spec.no_double (merge_underscores s) = true.
Proof.
  induction s as [|c r IH]; [done|].
  destruct r as [|d r']; [done|].
  change (merge_underscores (c :: d :: r')) with
    (if (c =? UNDERSCORE) && (d =? UNDERSCORE) then merge_underscores (d :: r')
     else c :: merge_underscores (d :: r')).
  destruct ((c =? UNDERSCORE) && (d =? UNDERSCORE)) eqn:Hcd; [done|].
  destruct (merge_underscores_head d r') as [ms Hms]. rewrite Hms in *.
  change (Spec.no_double (c :: d :: ms))
    with (negb ((c =? UNDERSCORE) && (d =? UNDERSCORE)) && Spec.no_double (d :: ms)).
  by rewrite Hcd, IH.
Qed.

Lemma merge_underscores_id (s : pystr) :
  Spec.no_double s = true -> merge_underscores s = s.
Proof.
  induction s as [|c r IH]; [done|].
  simpl. destruct r as [|d r']; [done|].
  intros H. apply andb_true_iff in H as [Hcd Hr].
  apply negb_true_iff in Hcd. rewrite Hcd. f_equal. by apply IH.
Qed.

Lemma no_double_tail (c : N) (s : pystr) :
  Spec.no_double (c :: s) = true -> Spec.no_double s = true.
Proof.
  simpl. destruct s as [|d r]; [done|]. intros H.
  by apply andb_true_iff in H as [_ H].
Qed.

Lemma no_double_drop_while (f : N -> bool) (s : pystr) :
  Spec.no_double s = true -> Spec.no_double (drop_while f s) = true.
Proof.
  induction s as [|c r IH]; [done|]. intros H. simpl.
  destruct (f c); [|done]. apply IH. by apply no_double_tail in H.
Qed.

Lemma no_double_snoc (s : pystr) (c : N) :
  Spec.no_double (s ++ [c]) = true <->
  Spec.no_double s = true
  /\ match rev s with
     | d :: _ => (d =? UNDERSCORE) && (c =? UNDERSCORE) = false
     | [] => True
     end.
Proof.
  induction s as [|a s IH].
  - simpl. tauto.
  - destruct s as [|b s'].
    + simpl. rewrite andb_true_r, negb_true_iff. tauto.
    + change (Spec.no_double ((a :: b :: s') ++ [c]))
        with (negb ((a =? UNDERSCORE) && (b =? UNDERSCORE))
              && Spec.no_double ((b :: s') ++ [c])).
      change (Spec.no_double (a :: b :: s'))
        with (negb ((a =? UNDERSCORE) && (b =? UNDERSCORE))
              && Spec.no_double (b :: s')).
      rewrite !andb_true_iff, IH.
      assert (rev (a :: b :: s') = rev (b :: s') ++ [a]) as -> by reflexivity.
      destruct (rev (b :: s')) as [|d r] eqn:Hrev.
      * apply (f_equal (@length N)) in Hrev. rewrite length_rev in Hrev. done.
      * simpl. tauto.
Qed.

Lemma no_double_rev (s : pystr) :
  Spec.no_double s = true -> Spec.no_double (rev s) = true.
Proof.
  induction s as [|c r IH]; [done|]. intros H.
  change (rev (c :: r)) with (rev r ++ [c]).
  apply no_double_snoc. split; [apply IH; by apply no_double_tail in H|].
  rewrite rev_involutive. destruct r as [|d r']; [done|].
  simpl in H. apply andb_true_iff in H as [H _]. apply negb_true_iff in H.
  by rewrite andb_comm.
Qed.

Lemma no_double_take (n : nat) (s : pystr) :
  Spec.no_double s = true -> Spec.no_double (take n s) = true.
Proof.
  revert s. induction n as [|n IH]; intros s H; [by destruct s|].
  destruct s as [|c r]; [done|].
  change (take (S n) (c :: r)) with (c :: take n r).
  specialize (IH r (no_double_tail c r H)).
  destruct r as [|d r']; [by destruct n|].
  destruct n as [|n']; [done|].
  change (take (S n') (d :: r')) with (d :: take n' r') in *.
  simpl in H |- *. apply andb_true_iff in H as [H _]. rewrite H. exact IH.
Qed.

Lemma drop_while_length (f : N -> bool) (s : pystr) :
  (length (drop_while f s) <= length s)%nat.
Proof.
  induction s as [|c r IH]; simpl; [lia|]. destruct (f c); simpl; lia.
Qed.

(** A second pass only strips the end of what the first pass returned,
    provided normalization leaves that unchanged. *)
Lemma sanitize_filename_twice (U : unicode) (title : pystr) :
  uc_nfkc U (sanitize_filename U title) = sanitize_filename U title ->
  sanitize_filename U (sanitize_filename U title)
  = Spec.rstrip_underscores (sanitize_filename U title).
Proof.
  intros Hnfkc.
  destruct (sanitize_filename_bounds U title) as [Hlen Hlegal].
  assert (Spec.no_double (sanitize_filename U title) = true) as Hnd.
  { unfold sanitize_filename, strip_by.
    apply no_double_take, no_double_rev, no_double_drop_while, no_double_rev,
      no_double_drop_while, no_double_merge. }
  assert (head_kept is_underscore (sanitize_filename U title)) as Hhead.
  { unfold sanitize_filename. apply head_kept_take, strip_head_kept. }
  set (u := sanitize_filename U title) in *.
  unfold sanitize_filename at 1. rewrite Hnfkc.
  rewrite replace_illegal_id, merge_underscores_id by done.
  unfold strip_by. rewrite (drop_while_id is_underscore u Hhead).
  apply take_ge. unfold Spec.rstrip_underscores.
  rewrite length_rev.
  pose proof (drop_while_length is_underscore (rev u)) as Hle.
  rewrite length_rev in Hle. lia.
Qed.

(** Sanitizing is idempotent on every title whose first pass does not end in
    an underscore, which is every title that the first pass does not cut. *)
Lemma sanitize_filename_idempotent_unless_cut (U : unicode) (title : pystr) :
  uc_nfkc U (sanitize_filename U title) = sanitize_filename U title ->
  head_kept is_underscore (rev (sanitize_filename U title)) ->
  sanitize_filename U (sanitize_filename U title) = sanitize_filename U title.
Proof.
  intros Hnfkc Hlast. rewrite sanitize_filename_twice by done.
  unfold Spec.rstrip_underscores. rewrite drop_while_id by done.
  apply rev_involutive.
Qed.

(** C6. Sanitizing is not idempotent on a title whose 200th character is
    replaced by an underscore: the underscore survives the truncation that
    follows the strip, and the second pass strips it. *)
Theorem sanitize_twice_differs (U : unicode) :
  Ascii.faithful U ->
  sanitize_filename U Samples.LONG_TITLE = repeat 97 199 ++ [UNDERSCORE]
  /\ sanitize_filename U (sanitize_filename U Samples.LONG_TITLE) = repeat 97 199
  /\ sanitize_filename U (sanitize_filename U Samples.LONG_TITLE)
     <> sanitize_filename U Samples.LONG_TITLE.
Proof.
  intros HU.
  assert (sanitize_filename U Samples.LONG_TITLE = repeat 97 199 ++ [UNDERSCORE]) as H1.
  { rewrite sanitize_filename_ascii by (done || by vm_compute). by vm_compute. }
  assert (sanitize_filename U (repeat 97 199 ++ [UNDERSCORE]) = repeat 97 199) as H2.
  { rewrite sanitize_filename_ascii by (done || by vm_compute). by vm_compute. }
  rewrite H1, H2. repeat split.
  intros H. apply (f_equal length) in H. vm_compute in H. discriminate.
Qed.

Lemma sanitize_twice_differs_witness :
  sanitize_filename Ascii.tables Samples.LONG_TITLE = repeat 97 199 ++ [UNDERSCORE]
  /\ sanitize_filename Ascii.tables (sanitize_filename Ascii.tables Samples.LONG_TITLE)
     = repeat 97 199
  /\ sanitize_filename Ascii.tables (sanitize_filename Ascii.tables Samples.LONG_TITLE)
     <> sanitize_filename Ascii.tables Samples.LONG_TITLE.
Proof. apply (sanitize_twice_differs Ascii.tables). split; reflexivity. Defined.

End SanitizeFacts.

(** ** Summarizing *)

Module ReadFacts.
Import BatchRead.

#[local] Arguments file_write : simpl never.

(** [summarize_text] posts one request and catches whatever follows. *)
Lemma summarize_text_run (E : env) (C : config) (text : pystr) (w : world) :
  exists (v : json) (evs : list event),
    summarize_text E C text w
    = (Ok v, {| fs := fs w;
                log := (log w ++ [Posted (summary_request C text)]) ++ evs |})
    /\ (evs = [] \/ exists e, evs = [Printed (MsgApiFailed e)] /\ v = JNull).
Proof.
  unfold summarize_text, try_except, bind, post, lift, print, emit, ret. simpl.
  destruct (requests_post E (summary_request C text)) as [resp|e]; simpl.
  - destruct (rbind (response_json resp) reply_content) as [v|e]; simpl.
    + exists v, []. rewrite app_nil_r. eauto.
    + exists JNull, [Printed (MsgApiFailed e)]. eauto.
  - exists JNull, [Printed (MsgApiFailed e)]. eauto.
Qed.

(** [parse_pdf] catches every exception and writes nothing. *)
Lemma parse_pdf_run (E : env) (pdf_path : pystr) (w : world) :
  exists (t : option pystr) (w1 : world),
    parse_pdf E pdf_path w = (Ok t, w1) /\ fs w1 = fs w.
Proof.
  unfold parse_pdf, try_except, bind, fitz_open, lift, print, emit, ret. simpl.
  destruct (fs w !! pdf_path) as [[|c]|]; simpl;
    [ | destruct (fitz_parse E c) as [doc|e]; simpl;
        [destruct (page_texts doc); simpl|] | ];
    eexists _, _; split; reflexivity.
Qed.

Lemma summarize_text_fs (E : env) (C : config) (text : pystr) (w : world) :
  exists (v : json) (w2 : world),
    summarize_text E C text w = (Ok v, w2) /\ fs w2 = fs w.
Proof.
  destruct (summarize_text_run E C text w) as (v & evs & Hrun & _).
  eexists _, _. split; [exact Hrun|reflexivity].
Qed.

Lemma file_write_opened (E : env) (md : pystr) (v : json)
    (files : gmap pystr entry) (c : pystr) (l : list event) :
  file_write E md v {| fs := <[md := File c]> files; log := l |}
  = match v with
    | JStr data =>
        if negb (utf8_encodable data)
        then (Raise UnicodeEncodeError, {| fs := <[md := File c]> files; log := l |})
        else if write_denied E md data
        then (Raise OSError, {| fs := <[md := File c]> files; log := l |})
        else (Ok tt, {| fs := <[md := File (c ++ data)]> files;
                        log := l ++ [Wrote md data] |})
    | _ => (Raise TypeError, {| fs := <[md := File c]> files; log := l |})
    end.
Proof.
  unfold file_write. destruct v; try reflexivity. simpl.
  rewrite lookup_insert_eq, insert_insert_eq. reflexivity.
Qed.

(** The write block either is refused the open and changes nothing, or
    leaves a file at the summary path; on [Success] the file is complete. *)
Lemma save_block_run (E : env) (md pdf_path : pystr) (v : json) (w : world) :
  fs w !! md = None ->
  exists (o : outcome) (w' : world),
    save_block E md pdf_path v w = (Ok o, w')
    /\ ((open_w_denied E md = true /\ o = Failed /\ fs w' = fs w)
        \/ (open_w_denied E md = false
            /\ exists c, fs w' = <[md := File c]> (fs w)
                 /\ (o = Success ->
                     exists s, v = JStr s
                               /\ c = (HEADER_TITLE ++ header_source pdf_path) ++ s))).
Proof.
  intros Hfree. unfold save_block, try_except, bind, open_w, print, emit, ret.
  rewrite Hfree.
  destruct (open_w_denied E md) eqn:Hopen; simpl.
  { eexists _, _. split; [reflexivity|]. left. done. }
  rewrite file_write_opened.
  replace (utf8_encodable HEADER_TITLE) with true by reflexivity. simpl.
  destruct (write_denied E md HEADER_TITLE); simpl.
  { eexists _, _. split; [reflexivity|]. right. split; [done|].
    eexists. split; [reflexivity|]. discriminate. }
  rewrite file_write_opened.
  destruct (utf8_encodable (header_source pdf_path)); simpl.
  2:{ eexists _, _. split; [reflexivity|]. right. split; [done|].
      eexists. split; [reflexivity|]. discriminate. }
  destruct (write_denied E md (header_source pdf_path)); simpl.
  { eexists _, _. split; [reflexivity|]. right. split; [done|].
    eexists. split; [reflexivity|]. discriminate. }
  rewrite file_write_opened.
  destruct v as [| | |data| |]; simpl;
    try (eexists _, _; split; [reflexivity|]; right; split; [done|];
         eexists; split; [reflexivity|]; discriminate).
  destruct (utf8_encodable data); simpl.
  2:{ eexists _, _. split; [reflexivity|]. right. split; [done|].
      eexists. split; [reflexivity|]. discriminate. }
  destruct (write_denied E md data); simpl.
  { eexists _, _. split; [reflexivity|]. right. split; [done|].
    eexists. split; [reflexivity|]. discriminate. }
  eexists _, _. split; [reflexivity|]. right. split; [done|].
  eexists. split; [reflexivity|]. intros _. eexists. split; reflexivity.
Qed.

Lemma path_exists_absent (w : world) (q : pystr) :
  fs w !! q = None -> path_exists q w = (Ok false, w).
Proof.
  intros H. unfold path_exists. rewrite bool_decide_eq_false_2; [done|].
  rewrite H. by intros [? ?].
Qed.

(** Without a summary in place, [process_single_file] either fails early
    and changes no file, or reaches the open and leaves a file at the
    summary path. *)
Lemma process_single_file_cases (E : env) (C : config) (pdf_path : pystr) (w : world) :
  fs w !! md_path_of pdf_path = None ->
  exists (o : outcome) (w' : world),
    process_single_file E C pdf_path w = (Ok o, w')
    /\ ((Spec.early_failure E C pdf_path w /\ o = Failed /\ fs w' = fs w)
        \/ (Spec.reaches_open E C pdf_path w
            /\ exists c, fs w' = <[md_path_of pdf_path := File c]> (fs w)
                 /\ (o = Success ->
                     exists s, c = (HEADER_TITLE ++ header_source pdf_path) ++ s))).
Proof.
  intros Hfree. unfold process_single_file, bind.
  rewrite path_exists_absent by done.
  destruct (parse_pdf_run E pdf_path w) as (t & w1 & Hparse & Hfs1). rewrite Hparse.
  destruct t as [[|c0 text]|].
  - eexists _, _. split; [reflexivity|]. left.
    split; [by eapply Spec.EmptyExtraction|done].
  - destruct (summarize_text_fs E C (c0 :: text) w1) as (v & w2 & Hsum & Hfs2).
    rewrite Hsum. destruct (truthy v) eqn:Htruthy; simpl.
    + destruct (save_block_run E (md_path_of pdf_path) pdf_path v w2)
        as (o & w' & Hsave & Hcases); [by rewrite Hfs2, Hfs1|].
      rewrite Hsave. exists o, w'. split; [reflexivity|].
      rewrite Hfs2, Hfs1 in Hcases.
      destruct Hcases as [(Hden & -> & Hfs)|(Hden & c & Hfs & Hfull)].
      * left. split; [by apply Spec.OpenRefused|done].
      * right. split.
        { exists (c0 :: text), w1, v, w2. done. }
        exists c. split; [done|]. intros Ho. destruct (Hfull Ho) as (s & _ & ->). eauto.
    + eexists _, _. split; [reflexivity|]. left.
      split; [by eapply Spec.ApiFailure|by rewrite Hfs2].
  - eexists _, _. split; [reflexivity|]. left.
    split; [by eapply Spec.ParseFailure|done].
Qed.

Lemma process_single_file_skips (E : env) (C : config) (pdf_path : pystr) (w : world) :
  is_Some (fs w !! md_path_of pdf_path) ->
  process_single_file E C pdf_path w = (Ok Skipped, w).
Proof.
  intros Hthere. unfold process_single_file, bind, path_exists.
  by rewrite bool_decide_eq_true_2.
Qed.

(** [process_single_file] never raises and never touches an existing path. *)
Lemma process_single_file_frame (E : env) (C : config) (pdf_path : pystr) (w : world) :
  exists (o : outcome) (w' : world),
    process_single_file E C pdf_path w = (Ok o, w')
    /\ forall q e, fs w !! q = Some e -> fs w' !! q = Some e.
Proof.
  destruct (fs w !! md_path_of pdf_path) as [e0|] eqn:Hmd.
  - exists Skipped, w. split; [|done].
    apply process_single_file_skips. by eexists.
  - destruct (process_single_file_cases E C pdf_path w Hmd)
      as (o & w' & Hrun & [(_ & _ & Hfs)|(_ & c & Hfs & _)]);
      exists o, w'; (split; [done|]); intros q e Hq; rewrite Hfs; [done|].
    rewrite lookup_insert_ne; [done|]. intros <-. congruence.
Qed.

Lemma process_files_frame (E : env) (C : config) (pdf_files : list pystr) :
  forall (st : stats) (w : world),
  exists (st' : stats) (w' : world),
    process_files E C pdf_files st w = (Ok st', w')
    /\ forall q e, fs w !! q = Some e -> fs w' !! q = Some e.
Proof.
  induction pdf_files as [|pdf_path rest IH]; intros st w; simpl.
  - by exists st, w.
  - destruct (process_single_file_frame E C pdf_path w) as (o & w1 & Hrun & Hkeep).
    destruct (IH (count st o) w1) as (st' & w' & Hrest & Hkeep').
    exists st', w'. unfold bind. rewrite Hrun. split; [done|]. auto.
Qed.

(** A whole batch never raises and never touches an existing path. *)
Lemma batch_process_pdfs_frame (E : env) (C : config) (root_dir : pystr) (w : world) :
  exists (st : stats) (w' : world),
    batch_process_pdfs E C root_dir w = (Ok st, w')
    /\ forall q e, fs w !! q = Some e -> fs w' !! q = Some e.
Proof.
  unfold batch_process_pdfs, bind, print, emit, ret.
  destruct (walk E root_dir w) as [r w0] eqn:Hwalk.
  assert (exists listing, r = Ok listing /\ w0 = w) as (listing & -> & ->).
  { unfold walk in Hwalk. destruct (fs w !! root_dir) as [[|]|];
      injection Hwalk as <- <-; eauto. }
  simpl. set (w0 := {| fs := fs w; log := _ |}).
  destruct (process_files_frame E C (collect_pdfs (unicode_db E) listing)
              {| n_success := 0; n_failed := 0; n_skipped := 0 |} w0)
    as (st & w' & Hrun & Hkeep).
  rewrite Hrun. eexists _, _. split; [reflexivity|]. simpl. exact Hkeep.
Qed.

(** C1. A PDF whose summary file already exists is [Skipped] and the world
    is as before: no parser call, no request, no write appears in the log and
    no file has changed; the summary file is also the same after a whole batch
    over any root. *)
Theorem existing_summary_is_skipped (E : env) (C : config) (w : world)
    (pdf_path root_dir : pystr) :
  is_Some (fs w !! md_path_of pdf_path) ->
  process_single_file E C pdf_path w = (Ok Skipped, w)
  /\ fs (snd (batch_process_pdfs E C root_dir w)) !! md_path_of pdf_path
     = fs w !! md_path_of pdf_path.
Proof.
  intros Hthere. split; [by apply process_single_file_skips|].
  destruct Hthere as [e He].
  destruct (batch_process_pdfs_frame E C root_dir w) as (st & w' & Hrun & Hkeep).
  rewrite Hrun. simpl. rewrite He. by apply Hkeep.
Qed.

Lemma existing_summary_is_skipped_witness :
  process_single_file Samples.working shipped (lit "/d/a.pdf") Samples.half_done
  = (Ok Skipped, Samples.half_done)
  /\ fs (snd (batch_process_pdfs Samples.working shipped (lit "/d") Samples.half_done))
       !! lit "/d/a.md"
     = fs Samples.half_done !! lit "/d/a.md".
Proof.
  apply (existing_summary_is_skipped Samples.working shipped Samples.half_done
           (lit "/d/a.pdf") (lit "/d")).
  vm_compute. eauto.
Defined.

(** The scenario of the specification: [a.pdf] summarized before, [b.pdf]
    not; the batch counts one success and one skip and leaves [a.md] alone. *)
Example batch_scenario :
  fst (batch_process_pdfs Samples.working shipped (lit "/d") Samples.half_done)
  = Ok {| n_success := 1; n_failed := 0; n_skipped := 1 |}
  /\ fs (snd (batch_process_pdfs Samples.working shipped (lit "/d") Samples.half_done))
       !! lit "/d/a.md"
     = Some (File (lit "old summary"))
  /\ fs (snd (batch_process_pdfs Samples.working shipped (lit "/d") Samples.half_done))
       !! lit "/d/b.md"
     = Some (File (HEADER_TITLE ++ header_source (lit "/d/b.pdf") ++ lit "a summary")).
Proof. vm_compute. done. Qed.





(** C8. For a text longer than the budget, the prompt of the one request
    [summarize_text] posts is the fixed head followed by exactly the first
    [PROMPT_BUDGET] = 65535 characters of the text. *)
Theorem prompt_is_prefix_cut (E : env) (C : config) (text : pystr) (w : world) :
  (PROMPT_BUDGET < length text)%nat ->
  exists (context rest : pystr) (r : request) (v : json) (evs : list event),
    text = context ++ rest
    /\ length context = PROMPT_BUDGET
    /\ N.of_nat (length context) = 65535
    /\ summarize_text E C text w
       = (Ok v, {| fs := fs w; log := (log w ++ [Posted r]) ++ evs |})
    /\ Spec.prompt_of r = Some (PROMPT_HEAD ++ context)
    /\ (forall r', Posted r' ∉ evs).
Proof.
  intros Hlong.
  destruct (summarize_text_run E C text w) as (v & evs & Hrun & Hevs).
  exists (take PROMPT_BUDGET text), (drop PROMPT_BUDGET text),
    (summary_request C text), v, evs.
  assert (length (take PROMPT_BUDGET text) = PROMPT_BUDGET) as Hlen
    by (rewrite length_take; lia).
  split; [by rewrite take_drop|]. split; [done|].
  split; [rewrite Hlen; unfold PROMPT_BUDGET; by rewrite N2Nat.id|].
  split; [done|]. split; [reflexivity|].
  intros r' Hin. destruct Hevs as [->|(e & -> & _)].
  - by apply elem_of_nil in Hin.
  - apply list_elem_of_singleton in Hin. discriminate.
Qed.

Lemma prompt_is_prefix_cut_witness :
  exists (context rest : pystr) (r : request) (v : json) (evs : list event),
    Samples.LONG_TEXT = context ++ rest
    /\ length context = PROMPT_BUDGET
    /\ N.of_nat (length context) = 65535
    /\ summarize_text Samples.offline shipped Samples.LONG_TEXT (Samples.world_of [])
       = (Ok v, {| fs := ∅; log := ([] ++ [Posted r]) ++ evs |})
    /\ Spec.prompt_of r = Some (PROMPT_HEAD ++ context)
    /\ (forall r', Posted r' ∉ evs).
Proof.
  apply (prompt_is_prefix_cut Samples.offline shipped Samples.LONG_TEXT
           (Samples.world_of [])).
  unfold Samples.LONG_TEXT. rewrite repeat_length. lia.
Defined.

End ReadFacts.

(** ** The API clients *)

Module ApiFacts.
Import MdSummarize.


(** So does a 4xx or 5xx status. *)
Lemma call_llm_api_bad_status (E : env) (A : analyzer) (prompt : pystr) (w : world)
    (resp : response) :
  requests_post E (llm_request A prompt) = Ok resp ->
  400 <= status_code resp < 600 ->
  call_llm_api E A prompt w
  = (Ok (JStr []),
     {| fs := fs w;
        log := (log w ++ [Posted (llm_request A prompt)])
               ++ [Printed (MsgApiFailed (HTTPError (status_code resp)))] |}).
Proof.
  intros Hpost [Hlo Hhi]. unfold call_llm_api, try_except, bind, post, lift, raise_for_status.
  rewrite Hpost.
  apply N.leb_le in Hlo. apply N.ltb_lt in Hhi. rewrite Hlo, Hhi. reflexivity.
Qed.

(** So does a body in which a key of the reply path is missing. *)
Lemma call_llm_api_missing_key (E : env) (A : analyzer) (prompt : pystr) (w : world)
    (resp : response) (v : json) :
  requests_post E (llm_request A prompt) = Ok resp ->
  raise_for_status resp = Ok tt ->
  body resp = Some v ->
  reply_content v = Raise KeyError ->
  call_llm_api E A prompt w
  = (Ok (JStr []),
     {| fs := fs w;
        log := (log w ++ [Posted (llm_request A prompt)])
               ++ [Printed (MsgApiBadShape KeyError)] |}).
Proof.
  intros Hpost Hstatus Hbody Hshape.
  unfold call_llm_api, try_except, bind, post, lift, response_json.
  rewrite Hpost, Hstatus, Hbody. simpl. rewrite Hshape. reflexivity.
Qed.

(** Both callers test the result for truth, and both empty results are false. *)
Lemma empty_results_alike : truthy (JStr []) = false /\ truthy JNull = false.
Proof. split; reflexivity. Qed.

(** C4, where the code departs from it. A 200 response whose list of choices
    is empty makes [call_llm_api] raise [IndexError] to its caller, and
    [summarize_text] returns the content of a well-formed body whatever the
    status code, 4xx and 5xx included. *)
Theorem api_clients_diverge (E1 E2 : env) (A : analyzer) (C : BatchRead.config)
    (prompt text : pystr) (w : world) (status : N) (content : json) :
  requests_post E1 (llm_request A prompt) = Samples.no_choices ->
  requests_post E2 (BatchRead.summary_request C text) = Samples.reply status content ->
  call_llm_api E1 A prompt w
  = (Raise IndexError, {| fs := fs w; log := log w ++ [Posted (llm_request A prompt)] |})
  /\ BatchRead.summarize_text E2 C text w
     = (Ok content,
        {| fs := fs w; log := log w ++ [Posted (BatchRead.summary_request C text)] |}).
Proof.
  intros Hpost1 Hpost2. split.
  - unfold call_llm_api, try_except, bind, post. rewrite Hpost1. reflexivity.
  - unfold BatchRead.summarize_text, try_except, bind, post. rewrite Hpost2.
    unfold lift, Samples.reply, response_json, reply_content, rbind. simpl.
    reflexivity.
Qed.

Lemma api_clients_diverge_witness :
  call_llm_api (Samples.with_endpoint Samples.offline Samples.no_choices)
    (new_analyzer (lit "k") [] (lit "m")) (lit "hello") (Samples.world_of [])
  = (Raise IndexError,
     {| fs := ∅;
        log := [Posted (llm_request (new_analyzer (lit "k") [] (lit "m")) (lit "hello"))] |})
  /\ BatchRead.summarize_text
       (Samples.with_endpoint Samples.offline (Samples.reply 500 (JStr (lit "x"))))
       BatchRead.shipped (lit "text") (Samples.world_of [])
     = (Ok (JStr (lit "x")),
        {| fs := ∅;
           log := [Posted (BatchRead.summary_request BatchRead.shipped (lit "text"))] |}).
Proof.
  apply (api_clients_diverge
           (Samples.with_endpoint Samples.offline Samples.no_choices)
           (Samples.with_endpoint Samples.offline (Samples.reply 500 (JStr (lit "x"))))
           (new_analyzer (lit "k") [] (lit "m")) BatchRead.shipped
           (lit "hello") (lit "text") (Samples.world_of []) 500 (JStr (lit "x")));
    reflexivity.
Defined.

End ApiFacts.

(** ** Pre-flight checks *)

Module PreflightFacts.

(** With a root that is not there, the summarizer batch finds nothing and
    ends normally. *)
Lemma batch_process_pdfs_missing_root (E : env) (C : BatchRead.config)
    (root_dir : pystr) (w : world) :
  fs w !! root_dir = None ->
  BatchRead.batch_process_pdfs E C root_dir w
  = (Ok {| BatchRead.n_success := 0; BatchRead.n_failed := 0; BatchRead.n_skipped := 0 |},
     {| fs := fs w;
        log := (log w ++ [Printed (MsgFound 0)]) ++ [Printed (MsgStats 0 0 0)] |}).
Proof.
  intros Hroot. unfold BatchRead.batch_process_pdfs, bind, walk.
  rewrite Hroot. reflexivity.
Qed.

(** So does the rename batch. *)
Lemma process_folder_missing_root (E : env) (root_dir : pystr) (w : world) :
  fs w !! root_dir = None ->
  BatchRename.process_folder E root_dir w
  = (Ok {| BatchRename.renamed := 0; BatchRename.failed := 0; BatchRename.skipped := 0 |},
     {| fs := fs w;
        log := (log w ++ [Printed (MsgFound 0)]) ++ [Printed (MsgStats 0 0 0)] |}).
Proof.
  intros Hroot. unfold BatchRename.process_folder, bind, walk.
  rewrite Hroot. reflexivity.
Qed.

(** The aggregator does stop at a missing directory. *)
Lemma main_missing_directory (E : env) (C : MdSummarize.config) (w : world) :
  fs w !! MdSummarize.MARKDOWN_DIRECTORY C = None ->
  MdSummarize.main E C w
  = (Ok tt, {| fs := fs w;
               log := log w ++ [Printed (MsgDirMissing (MdSummarize.MARKDOWN_DIRECTORY C))] |}).
Proof.
  intros Hdir. unfold MdSummarize.main, bind, path_isdir. rewrite Hdir. reflexivity.
Qed.

(** C3, where the code departs from it. With the API key left at the value
    the script ships with, the aggregator passes its key check and goes on to
    read and post; with a root directory that does not exist, both PDF batches
    report zero files and end normally, without any error. *)
Theorem preflight_checks_pass (E : env) (C : MdSummarize.config)
    (C' : BatchRead.config) (w : world) (root_dir : pystr) :
  fs w !! MdSummarize.MARKDOWN_DIRECTORY C = Some Dir ->
  MdSummarize.API_KEY C = MdSummarize.API_KEY MdSummarize.shipped ->
  fs w !! root_dir = None ->
  MdSummarize.main E C w = MdSummarize.report_run E C w
  /\ BatchRead.batch_process_pdfs E C' root_dir w
     = (Ok {| BatchRead.n_success := 0; BatchRead.n_failed := 0; BatchRead.n_skipped := 0 |},
        {| fs := fs w;
           log := (log w ++ [Printed (MsgFound 0)]) ++ [Printed (MsgStats 0 0 0)] |})
  /\ BatchRename.process_folder E root_dir w
     = (Ok {| BatchRename.renamed := 0; BatchRename.failed := 0; BatchRename.skipped := 0 |},
        {| fs := fs w;
           log := (log w ++ [Printed (MsgFound 0)]) ++ [Printed (MsgStats 0 0 0)] |}).
Proof.
  intros Hdir Hkey Hroot. split; [|split].
  - unfold MdSummarize.main, bind, path_isdir. rewrite Hdir, Hkey. reflexivity.
  - by apply batch_process_pdfs_missing_root.
  - by apply process_folder_missing_root.
Qed.

Lemma preflight_checks_pass_witness :
  MdSummarize.main Samples.aggregator_env Samples.pointed Samples.summaries
  = MdSummarize.report_run Samples.aggregator_env Samples.pointed Samples.summaries
  /\ BatchRead.batch_process_pdfs Samples.aggregator_env BatchRead.shipped
       (BatchRead.INPUT_DIR BatchRead.shipped) Samples.summaries
     = (Ok {| BatchRead.n_success := 0; BatchRead.n_failed := 0; BatchRead.n_skipped := 0 |},
        {| fs := fs Samples.summaries;
           log := [Printed (MsgFound 0); Printed (MsgStats 0 0 0)] |})
  /\ BatchRename.process_folder Samples.aggregator_env
       (BatchRead.INPUT_DIR BatchRead.shipped) Samples.summaries
     = (Ok {| BatchRename.renamed := 0; BatchRename.failed := 0; BatchRename.skipped := 0 |},
        {| fs := fs Samples.summaries;
           log := [Printed (MsgFound 0); Printed (MsgStats 0 0 0)] |}).
Proof.
  apply (preflight_checks_pass Samples.aggregator_env Samples.pointed BatchRead.shipped
           Samples.summaries (BatchRead.INPUT_DIR BatchRead.shipped)).
  - vm_compute. reflexivity.
  - reflexivity.
  - vm_compute. reflexivity.
Defined.

(** The run of the witness in full: the summary is read and a request is
    posted that carries the placeholder as bearer token. *)
Example placeholder_key_is_sent :
  exists r,
    log (snd (MdSummarize.main Samples.aggregator_env Samples.pointed Samples.summaries))
      !! 5%nat = Some (Posted r)
    /\ req_headers r !! 0%nat = Some (lit "Authorization", lit "Bearer your-api-key").
Proof. eexists. split; vm_compute; reflexivity. Qed.

End PreflightFacts.

(** ** Title extraction *)

Module TitleFacts.
Import BatchRename.

(** The loop over the lines returns the first line that qualifies. *)
Lemma first_title_line_find (U : unicode) (lines : list pystr) :
  first_title_line U lines = find (Spec.qualifies U) lines.
Proof.
  induction lines as [|line rest IH]; [reflexivity|].
  cbn [first_title_line find]. rewrite IH.
  assert (Spec.qualifies U line
          = ((10 <=? length line)%nat && (length line <=? 200)%nat
             && negb (str_isdigit U line))
            && negb (header_footer U line)) as -> by reflexivity.
  destruct ((10 <=? length line)%nat && (length line <=? 200)%nat
            && negb (str_isdigit U line));
    destruct (header_footer U line); reflexivity.
Qed.

Lemma qle_refl (a : Q) : Qle_bool a a = true.
Proof. apply Qle_bool_iff, Qle_refl. Qed.

Lemma qle_trans (a b c : Q) :
  Qle_bool a b = true -> Qle_bool b c = true -> Qle_bool a c = true.
Proof. rewrite !Qle_bool_iff. apply Qle_trans. Qed.

Lemma qgt_le (a b : Q) : Qgt_bool a b = true -> Qle_bool b a = true.
Proof.
  unfold Qgt_bool. intros H. apply negb_true_iff in H.
  apply Qle_bool_iff, Qlt_le_weak, Qnot_le_lt.
  intros Hle. apply Qle_bool_iff in Hle. congruence.
Qed.

Lemma qgt_not_le (a b : Q) : Qgt_bool a b = true -> Qle_bool a b = false.
Proof. unfold Qgt_bool. intros H. by apply negb_true_iff in H. Qed.

Lemma not_qgt_le (a b : Q) : Qgt_bool a b = false -> Qle_bool a b = true.
Proof. unfold Qgt_bool. intros H. by apply negb_false_iff in H. Qed.

(** What the running maximum ends with: an item no other exceeds, which is
    either the initial one, or an item of the list that is larger than the
    initial one and than everything before it. *)
Lemma max_by_size_first (items : list (pystr * Q)) :
  forall best : pystr * Q,
    let m := max_by_size best items in
    Qle_bool (snd best) (snd m) = true
    /\ (forall y, In y items -> Qle_bool (snd y) (snd m) = true)
    /\ (m = best
        \/ Qgt_bool (snd m) (snd best) = true
           /\ exists pre post,
                items = pre ++ m :: post
                /\ forall y, In y pre -> Qgt_bool (snd m) (snd y) = true).
Proof.
  induction items as [|x r IH]; intros best; simpl.
  - split; [apply qle_refl|]. split; [tauto|by left].
  - destruct (Qgt_bool (snd x) (snd best)) eqn:Hx.
    + destruct (IH x) as (Hxm & Hall & Hpos). simpl in Hxm, Hall, Hpos.
      assert (Qgt_bool (snd (max_by_size x r)) (snd best) = true) as Hgt.
      { unfold Qgt_bool in *. apply negb_true_iff. apply negb_true_iff in Hx.
        destruct (Qle_bool (snd (max_by_size x r)) (snd best)) eqn:Hle; [|done].
        rewrite (qle_trans _ _ _ Hxm Hle) in Hx. discriminate. }
      split; [by apply qgt_le|]. split.
      * intros y [<-|Hy]; auto.
      * right. split; [done|].
        destruct Hpos as [Heq|(Hgt' & pre & post & Hr & Hpre)].
        -- exists [], r. rewrite Heq. split; [done|]. intros y [].
        -- exists (x :: pre), post. split; [by rewrite Hr at 1|].
           intros y [<-|Hy]; auto.
    + destruct (IH best) as (Hbm & Hall & Hpos). simpl in Hbm, Hall, Hpos.
      split; [done|]. split.
      * intros y [<-|Hy]; auto.
        apply not_qgt_le in Hx. by apply (qle_trans _ _ _ Hx).
      * destruct Hpos as [Heq|(Hgt' & pre & post & Hr & Hpre)]; [by left|].
        right. split; [done|].
        exists (x :: pre), post. split; [by rewrite Hr at 1|].
        intros y [<-|Hy]; auto.
        unfold Qgt_bool in *. apply negb_true_iff. apply negb_true_iff in Hgt'.
        apply negb_false_iff in Hx.
        destruct (Qle_bool (snd (max_by_size best r)) (snd x)) eqn:Hle; [|done].
        rewrite (qle_trans _ _ _ Hle Hx) in Hgt'. discriminate.
Qed.

Lemma find_app_none {A} (f : A -> bool) (pre rest : list A) :
  (forall y, In y pre -> f y = false) -> find f (pre ++ rest) = find f rest.
Proof.
  induction pre as [|y pre IH]; intros Hpre; [reflexivity|].
  simpl. rewrite (Hpre y) by by left. apply IH. intros z Hz. apply Hpre. by right.
Qed.

(** [max] with the size as key picks the first span that no span exceeds. *)
Lemma max_by_size_find (x : pystr * Q) (r : list (pystr * Q)) :
  find (fun sp => forallb (fun sp' => Qle_bool (snd sp') (snd sp)) (x :: r)) (x :: r)
  = Some (max_by_size x r).
Proof.
  destruct (max_by_size_first r x) as (Hxm & Hall & Hpos). simpl in Hxm, Hall, Hpos.
  set (m := max_by_size x r) in *.
  assert (forallb (fun sp' => Qle_bool (snd sp') (snd m)) (x :: r) = true) as Hm.
  { apply forallb_forall. intros y [<-|Hy]; auto. }
  assert (forall y : pystr * Q, Qgt_bool (snd m) (snd y) = true -> In m (x :: r) ->
                    forallb (fun sp' => Qle_bool (snd sp') (snd y)) (x :: r) = false)
    as Hsmall.
  { intros y Hy Hin. apply not_true_is_false. intros Hall'.
    rewrite forallb_forall in Hall'. specialize (Hall' m Hin).
    apply qgt_not_le in Hy. congruence. }
  destruct Hpos as [Heq|(Hgt & pre & post & Hr & Hpre)].
  - rewrite Heq in Hm. simpl find. simpl in Hm. rewrite Hm. by rewrite Heq.
  - assert (In m (x :: r)) as Hin.
    { right. rewrite Hr. apply in_or_app. right. by left. }
    change (x :: r) with ([x] ++ r) at 2. rewrite Hr.
    rewrite (app_assoc [x] pre (m :: post)).
    rewrite find_app_none.
    + simpl find. rewrite <- Hr. simpl app.
      simpl in Hm. rewrite Hm. reflexivity.
    + intros y Hy. rewrite <- Hr. simpl app. apply Hsmall; [|done].
      apply in_app_or in Hy as [[<-|[]]|Hy]; auto.
Qed.

(** The font fallback of a page is [Spec.font_title]. *)
Lemma font_fallback_spec (blocks : list block) :
  match font_sizes blocks with
  | [] => None
  | x :: r =>
      let largest := max_by_size x r in
      if Qgt_bool (snd largest) 11 then Some (fst largest) else None
  end
  = Spec.font_title blocks.
Proof.
  unfold Spec.font_title. destruct (font_sizes blocks) as [|x r]; [reflexivity|].
  by rewrite max_by_size_find.
Qed.

(** A page that loads is scanned by lines first, by font size second. *)
Lemma scan_page_spec (U : unicode) (text : pystr) (blocks : list block) :
  scan_page U {| get_text := Ok text; get_text_dict_blocks := Ok blocks |}
  = Ok (Spec.first_some [Spec.line_title U text; Spec.font_title blocks]).
Proof.
  unfold scan_page, Spec.line_title. simpl. rewrite first_title_line_find.
  destruct (find (Spec.qualifies U) (take 10 (stripped_lines U text))); [reflexivity|].
  simpl. rewrite <- font_fallback_spec.
  destruct (font_sizes blocks) as [|x r]; [reflexivity|]. simpl.
  destruct (Qgt_bool (snd (max_by_size x r)) 11); reflexivity.
Qed.

Lemma scan_pages_spec (U : unicode) (views : list (pystr * list block)) :
  scan_pages U (Spec.document_of views) = Ok (Spec.title_by_page U views).
Proof.
  induction views as [|[text blocks] rest IH]; [reflexivity|].
  unfold Spec.title_by_page in *. simpl. rewrite scan_page_spec. simpl.
  destruct (Spec.line_title U text); [reflexivity|].
  destruct (Spec.font_title blocks); [reflexivity|]. exact IH.
Qed.

(** What heuristic (a) returns on a page: the first of the first ten
    non-blank lines that qualifies. *)
Lemma line_title_first (U : unicode) (text line : pystr) :
  Spec.line_title U text = Some line <->
  exists i, (i < 10)%nat
            /\ stripped_lines U text !! i = Some line
            /\ Spec.qualifies U line = true
            /\ forall j l, (j < i)%nat -> stripped_lines U text !! j = Some l ->
                           Spec.qualifies U l = false.
Proof.
  unfold Spec.line_title. generalize (stripped_lines U text) as lines.
  generalize 10%nat as n.
  intros n lines. revert n. induction lines as [|l0 lines IH]; intros n.
  - rewrite take_nil. simpl. split; [done|]. by intros (i & _ & H & _).
  - destruct n as [|n]; simpl.
    { split; [done|]. intros (i & Hi & _). lia. }
    destruct (Spec.qualifies U l0) eqn:Hq.
    + split.
      * intros [= <-]. exists 0%nat. repeat split; [lia|done|]. intros j l Hj. lia.
      * intros (i & Hi & Hl & Hql & Hbefore). destruct i as [|i].
        -- simpl in Hl. by injection Hl as <-.
        -- specialize (Hbefore 0%nat l0 ltac:(lia) eq_refl). congruence.
    + rewrite IH. split.
      * intros (i & Hi & Hl & Hql & Hbefore). exists (S i).
        repeat split; [lia|done|done|]. intros [|j] l Hj Hjl.
        -- simpl in Hjl. by injection Hjl as <-.
        -- simpl in Hjl. apply (Hbefore j); [lia|done].
      * intros (i & Hi & Hl & Hql & Hbefore). destruct i as [|i].
        -- simpl in Hl. injection Hl as <-. congruence.
        -- exists i. repeat split; [lia|done|done|].
           intros j l Hj Hjl. apply (Hbefore (S j)); [lia|done].
Qed.

(** C5, as the code has it. For a document whose pages load, the title is
    found page by page over the first two pages: on each page the first ten
    non-blank lines are scanned for one that qualifies, then the font fallback
    runs on that same page, and only then is the next page looked at. *)
Theorem title_is_found_page_by_page (E : env) (w : world) (pdf_path c : pystr)
    (views : list (pystr * list block)) :
  fs w !! pdf_path = Some (File c) ->
  fitz_parse E c = Ok (Spec.document_of views) ->
  extract_pdf_title E pdf_path w
  = (Ok (Spec.title_by_page (unicode_db E) (take 2 views)),
     {| fs := fs w; log := log w ++ [FitzOpened pdf_path] |}).
Proof.
  intros Hfile Hparse.
  apply (RenameFacts.extract_pdf_title_ok E w pdf_path c (Spec.document_of views));
    [done|done|].
  unfold Spec.document_of. rewrite <- fmap_take. apply scan_pages_spec.
Qed.

Lemma title_is_found_page_by_page_witness :
  extract_pdf_title
    (Samples.with_parser Samples.offline (Spec.document_of Samples.cover_views))
    (lit "/d/x.pdf") Samples.crowded
  = (Ok (Some (lit "Report")),
     {| fs := fs Samples.crowded; log := [FitzOpened (lit "/d/x.pdf")] |}).
Proof.
  apply (title_is_found_page_by_page
           (Samples.with_parser Samples.offline (Spec.document_of Samples.cover_views))
           Samples.crowded (lit "/d/x.pdf") [1] Samples.cover_views).
  - vm_compute. reflexivity.
  - reflexivity.
Defined.

(** C5, as stated, fails: the second page starts with a line heuristic (a)
    accepts, yet the title returned is the large-type span of the first page,
    whose font fallback ran before the lines of the second page were read. *)
Lemma font_fallback_precedes_second_page :
  Spec.heuristic_a Ascii.tables (map fst Samples.cover_views)
  = Some (lit "A proper title line of the paper")
  /\ fst (extract_pdf_title
            (Samples.with_parser Samples.offline (Spec.document_of Samples.cover_views))
            (lit "/d/x.pdf") Samples.crowded)
     = Ok (Some (lit "Report")).
Proof. split; vm_compute; reflexivity. Qed.

(** Nor is a line beyond the tenth of a page ever returned. *)
Example eleventh_line_is_not_read :
  Spec.heuristic_a Ascii.tables [Samples.eleven_lines]
  = Some (lit "The title on line eleven")
  /\ scan_pages Ascii.tables (take 2 (Spec.document_of [(Samples.eleven_lines, [])]))
     = Ok None.
Proof. split; vm_compute; reflexivity. Qed.

End TitleFacts.

(** ** Paths *)

Module PathProps.
Import PosixPath Props.

#[local] Arguments N.eqb : simpl never.

Lemma rfind_none (c : N) (s : pystr) :
  c ∉ s -> rfind c s = None.
Proof.
  induction s as [|d r IH]; [done|]. intros Hc.
  apply not_elem_of_cons in Hc as [Hne Hr]. simpl. rewrite IH by done.
  destruct (N.eqb_spec d c); [congruence|done].
Qed.

Lemma rfind_app (c : N) (a b : pystr) :
  rfind c (a ++ b)
  = match rfind c b with
    | Some i => Some (length a + i)%nat
    | None => rfind c a
    end.
Proof.
  induction a as [|d a IH]; simpl.
  - by destruct (rfind c b).
  - rewrite IH. by destruct (rfind c b).
Qed.

(** The last occurrence sits right after [a] when nothing follows it in [b]. *)
Lemma rfind_last (c : N) (a b : pystr) :
  c ∉ b -> rfind c (a ++ c :: b) = Some (length a).
Proof.
  intros Hb. rewrite rfind_app. simpl. rewrite (rfind_none c b Hb), N.eqb_refl.
  f_equal. lia.
Qed.

Lemma endswith_slash (d : pystr) :
  endswith d [SLASH] = true <-> exists d0, d = d0 ++ [SLASH].
Proof.
  unfold endswith. simpl. split.
  - destruct (rev d) as [|c r] eqn:Hrev; [done|]. simpl.
    rewrite andb_true_r. intros Hc. apply N.eqb_eq in Hc. subst c.
    exists (rev r). apply (f_equal (@rev N)) in Hrev.
    rewrite rev_involutive in Hrev. by rewrite Hrev.
  - intros [d0 ->]. rewrite rev_app_distr. simpl. by rewrite ?N.eqb_refl.
Qed.

Lemma startswith_slash_absent (x : pystr) :
  SLASH ∉ x -> startswith x [SLASH] = false.
Proof.
  destruct x as [|c x]; [done|]. intros Hc. simpl.
  apply not_elem_of_cons in Hc as [Hne _].
  destruct (N.eqb_spec SLASH c); [congruence|done].
Qed.

(** Joining a name that holds no slash appends it to a prefix that depends
    on the directory alone. *)
Lemma join_is_append (d : pystr) :
  exists pre, is_prefix_dir pre
              /\ (d = [] -> pre = [])
              /\ forall x, SLASH ∉ x -> join d x = pre ++ x.
Proof.
  destruct (bool_decide (d = []) || endswith d [SLASH]) eqn:Hd.
  - exists d. split; [|split; [done|]].
    + apply orb_true_iff in Hd as [Hd|Hd].
      * left. by apply bool_decide_eq_true in Hd.
      * right. by apply endswith_slash.
    + intros x Hx. unfold join. by rewrite startswith_slash_absent, Hd.
  - exists (d ++ [SLASH]). split; [right; by eexists|]. split.
    + intros ->. done.
    + intros x Hx. unfold join. rewrite startswith_slash_absent, Hd by done.
      by rewrite <- app_assoc.
Qed.

Lemma rfind_slash_prefix (pre x : pystr) :
  is_prefix_dir pre -> SLASH ∉ x ->
  match rfind SLASH (pre ++ x) with
  | Some i => S i
  | None => 0%nat
  end = length pre.
Proof.
  intros [->|[p0 ->]] Hx.
  - simpl. by rewrite rfind_none.
  - rewrite <- app_assoc. simpl. rewrite rfind_last by done.
    rewrite length_app. simpl. lia.
Qed.

(** [basename] undoes [join] on a name without a slash. *)
Lemma basename_join (d x : pystr) :
  SLASH ∉ x -> basename (join d x) = x.
Proof.
  intros Hx. destruct (join_is_append d) as (pre & Hpre & _ & Hjoin).
  rewrite Hjoin by done. unfold basename.
  pose proof (rfind_slash_prefix pre x Hpre Hx) as Hidx.
  destruct (rfind SLASH (pre ++ x)) as [i|].
  - rewrite Hidx. by rewrite drop_app_length.
  - destruct pre; [done|discriminate].
Qed.

Lemma endswith_slash_false (d : pystr) :
  endswith d [SLASH] = false ->
  SanitizeFacts.head_kept (fun c => c =? SLASH) (rev d).
Proof.
  unfold endswith. simpl. destruct (rev d) as [|c r]; [done|]. simpl.
  rewrite andb_true_r. intros H. by rewrite N.eqb_sym.
Qed.

Lemma dirname_dir_form (p : pystr) : dir_form (dirname p).
Proof.
  unfold dirname, dir_form.
  set (head := match rfind SLASH p with Some i => take (S i) p | None => [] end).
  destruct (forallb (fun c => c =? SLASH) head) eqn:Hall; [by left|]. right.
  unfold endswith. rewrite rev_involutive. simpl.
  pose proof (SanitizeFacts.drop_while_head_kept (fun c => c =? SLASH) (rev head)) as H.
  destruct (drop_while (fun c => c =? SLASH) (rev head)) as [|c r]; [done|].
  simpl in H |- *. rewrite andb_true_r. by rewrite N.eqb_sym.
Qed.

(** [dirname] undoes [join] on a directory in the form [dirname] returns and
    a name without a slash. *)
Lemma dirname_join (d x : pystr) :
  dir_form d -> SLASH ∉ x -> dirname (join d x) = d.
Proof.
  intros Hform Hx. unfold join. rewrite startswith_slash_absent by done.
  destruct (bool_decide (d = [])) eqn:Hempty; simpl.
  { apply bool_decide_eq_true in Hempty as ->. simpl.
    unfold dirname. by rewrite rfind_none. }
  destruct (endswith d [SLASH]) eqn:Hends.
  - destruct Hform as [Hall|Hno]; [|congruence].
    apply endswith_slash in Hends as [d0 ->].
    unfold dirname. rewrite <- app_assoc. simpl. rewrite rfind_last by done.
    assert (take (S (length d0)) (d0 ++ SLASH :: x) = d0 ++ [SLASH]) as ->.
    { change (SLASH :: x) with ([SLASH] ++ x). rewrite app_assoc.
      rewrite take_app_length'; [done|]. rewrite length_app. simpl. lia. }
    by rewrite Hall.
  - unfold dirname. simpl. rewrite rfind_last by done.
    assert (take (S (length d)) (d ++ SLASH :: x) = d ++ [SLASH]) as ->.
    { change (SLASH :: x) with ([SLASH] ++ x). rewrite app_assoc.
      rewrite take_app_length'; [done|]. rewrite length_app. simpl. lia. }
    pose proof (endswith_slash_false d Hends) as Hhead.
    destruct (forallb (fun c => c =? SLASH) (d ++ [SLASH])) eqn:Hall.
    + exfalso. rewrite forallb_app in Hall. apply andb_true_iff in Hall as [Hall _].
      destruct (rev d) as [|c r] eqn:Hrev.
      * apply (f_equal (@rev N)) in Hrev. rewrite rev_involutive in Hrev.
        subst d. by apply bool_decide_eq_false in Hempty.
      * simpl in Hhead. rewrite forallb_forall in Hall.
        rewrite (Hall c) in Hhead; [done|].
        apply in_rev. rewrite Hrev. by left.
    + rewrite rev_app_distr. simpl. rewrite ?N.eqb_refl.
      rewrite SanitizeFacts.drop_while_id by done. apply rev_involutive.
Qed.

(** The extension is split off a last component [stem.ext] whose stem is
    not made of dots alone. *)
Lemma splitext_stem (pre stem ext : pystr) :
  is_prefix_dir pre ->
  SLASH ∉ stem -> SLASH ∉ ext -> DOT ∉ ext ->
  existsb (fun c => negb (c =? DOT)) stem = true ->
  splitext (pre ++ stem ++ DOT :: ext) = (pre ++ stem, DOT :: ext).
Proof.
  intros Hpre Hstem Hext Hdot Hreal. unfold splitext.
  rewrite app_assoc, rfind_last by done.
  assert (SLASH ∉ stem ++ DOT :: ext) as Hname.
  { rewrite elem_of_app, elem_of_cons. intros [?|[?|?]]; done. }
  pose proof (rfind_slash_prefix pre (stem ++ DOT :: ext) Hpre Hname) as Hidx.
  rewrite <- app_assoc.
  assert (match rfind SLASH (pre ++ stem ++ DOT :: ext) with
          | Some sepIndex => S sepIndex
          | None => 0%nat
          end = length pre) as ->.
  { destruct (rfind SLASH (pre ++ stem ++ DOT :: ext)); exact Hidx. }
  rewrite length_app.
  assert ((length pre <=? length pre + length stem)%nat = true) as ->
    by (apply Nat.leb_le; lia).
  rewrite drop_app_length.
  replace (length pre + length stem - length pre)%nat with (length stem) by lia.
  rewrite take_app_length, Hreal. simpl.
  rewrite app_assoc, <- length_app.
  by rewrite take_app_length, drop_app_length.
Qed.

End PathProps.

(** ** Sanitizing, further *)

Module SanitizeProps.
Import BatchRename SanitizeFacts.

Lemma head_kept_startswith (s : pystr) :
  head_kept is_underscore s -> startswith s [UNDERSCORE] = false.
Proof.
  destruct s as [|c s]; [done|]. unfold is_underscore, head_kept. intros H.
  change (startswith (c :: s) [UNDERSCORE])
    with ((UNDERSCORE =? c) && startswith s []).
  by rewrite N.eqb_sym, H.
Qed.

(** X1. A sanitized title holds at most 200 characters, every one of them a
    word character, a CJK ideograph, a hyphen or an underscore; it never
    starts with an underscore and never holds two underscores in a row. *)
Theorem sanitize_filename_shape (U : unicode) (title : pystr) :
  (length (sanitize_filename U title) <= 200)%nat
  /\ Forall (fun c => is_word U c = true
                      \/ (0x4e00 <= c <= 0x9fa5)
                      \/ c = HYPHEN)
       (sanitize_filename U title)
  /\ startswith (sanitize_filename U title) [UNDERSCORE] = false
  /\ Spec.no_double (sanitize_filename U title) = true.
Proof.
  destruct (sanitize_filename_bounds U title) as [Hlen Hlegal].
  split; [done|]. split; [|split].
  - eapply Forall_impl; [exact Hlegal|]. intros c Hc.
    unfold Spec.legal, illegal in Hc. apply negb_false_iff in Hc.
    apply orb_true_iff in Hc as [Hc|Hc]; [apply orb_true_iff in Hc as [Hc|Hc]|].
    + by left.
    + right. left. apply andb_true_iff in Hc as [Hlo Hhi].
      apply N.leb_le in Hlo, Hhi. done.
    + right. right. by apply N.eqb_eq in Hc.
  - apply head_kept_startswith. unfold sanitize_filename.
    apply head_kept_take, strip_head_kept.
  - unfold sanitize_filename, strip_by.
    apply no_double_take, no_double_rev, no_double_drop_while, no_double_rev,
      no_double_drop_while, no_double_merge.
Qed.

(** X2. Sanitizing a sanitized title changes nothing whenever the first pass
    did not have to cut (and normalization leaves its result alone). *)
Theorem sanitize_filename_idempotent_uncut (U : unicode) (title : pystr) :
  uc_nfkc U (sanitize_filename U title) = sanitize_filename U title ->
  (length (strip_by is_underscore
             (merge_underscores (replace_illegal U (uc_nfkc U title)))) <= 200)%nat ->
  sanitize_filename U (sanitize_filename U title) = sanitize_filename U title.
Proof.
  intros Hnfkc Hshort.
  apply sanitize_filename_idempotent_unless_cut; [done|].
  unfold sanitize_filename. rewrite take_ge by done.
  unfold strip_by. rewrite rev_involutive. apply drop_while_head_kept.
Qed.

Lemma sanitize_filename_idempotent_uncut_witness :
  sanitize_filename Ascii.tables (sanitize_filename Ascii.tables Samples.TITLE)
  = sanitize_filename Ascii.tables Samples.TITLE.
Proof.
  apply (sanitize_filename_idempotent_uncut Ascii.tables Samples.TITLE).
  - reflexivity.
  - vm_compute. lia.
Defined.

Lemma sanitize_filename_ascii_legal (U : unicode) (title : pystr) (c : N) :
  Ascii.faithful U ->
  c ∈ sanitize_filename U title ->
  c < 128 ->
  Ascii.isalnum c = true \/ c = HYPHEN \/ c = UNDERSCORE.
Proof.
  intros HU Hc Hascii.
  destruct (sanitize_filename_bounds U title) as [_ Hlegal].
  rewrite Forall_forall in Hlegal. specialize (Hlegal c Hc).
  unfold Spec.legal, illegal, is_word in Hlegal. apply negb_false_iff in Hlegal.
  rewrite (Ascii.f_isalnum U HU c Hascii) in Hlegal.
  apply orb_true_iff in Hlegal as [H|H]; [apply orb_true_iff in H as [H|H]|].
  - apply orb_true_iff in H as [H|H]; [by left|].
    right. right. by apply N.eqb_eq in H.
  - apply andb_true_iff in H as [Hlo _]. apply N.leb_le in Hlo. lia.
  - right. left. by apply N.eqb_eq in H.
Qed.

(** X3. With a character database that is right on Basic Latin, the only
    ASCII characters of a sanitized title are letters, digits, the hyphen and
    the underscore; in particular it holds no slash and no dot. *)
Theorem sanitize_filename_ascii_alphabet (U : unicode) (title : pystr) :
  Ascii.faithful U ->
  (forall c, c ∈ sanitize_filename U title -> c < 128 ->
             Ascii.isalnum c = true \/ c = HYPHEN \/ c = UNDERSCORE)
  /\ (SLASH ∉ sanitize_filename U title)
  /\ (DOT ∉ sanitize_filename U title).
Proof.
  intros HU. split; [intros c; by apply sanitize_filename_ascii_legal|].
  split; intros Hin;
    destruct (sanitize_filename_ascii_legal U title _ HU Hin) as [H|[H|H]];
    first [vm_compute; reflexivity | discriminate].
Qed.

Lemma sanitize_filename_ascii_alphabet_witness :
  (forall c, c ∈ sanitize_filename Ascii.tables Fixtures.ESCAPING_TITLE -> c < 128 ->
             Ascii.isalnum c = true \/ c = HYPHEN \/ c = UNDERSCORE)
  /\ (SLASH ∉ sanitize_filename Ascii.tables Fixtures.ESCAPING_TITLE)
  /\ (DOT ∉ sanitize_filename Ascii.tables Fixtures.ESCAPING_TITLE).
Proof.
  apply (sanitize_filename_ascii_alphabet Ascii.tables Fixtures.ESCAPING_TITLE).
  split; reflexivity.
Defined.

(** A sanitized title holds no path separator. *)
Lemma sanitize_filename_no_slash (U : unicode) (title : pystr) :
  Ascii.faithful U -> SLASH ∉ sanitize_filename U title.
Proof.
  intros HU Hin.
  destruct (sanitize_filename_ascii_legal U title SLASH HU Hin) as [H|[H|H]];
    [vm_compute; reflexivity|discriminate..].
Qed.

Example escaping_title_is_tamed :
  sanitize_filename Ascii.tables Fixtures.ESCAPING_TITLE
  = lit "etc_A_Study_of_Something_v2".
Proof. vm_compute. reflexivity. Qed.

End SanitizeProps.

(** ** Renaming, further *)

Module RenameProps.
Import BatchRename RenameFacts Props.

Lemma pretty_N_char_digit (k : N) :
  Ascii.isdigit (N_of_ascii (pretty_N_char k)) = true.
Proof. unfold pretty_N_char. repeat case_match; reflexivity. Qed.

Lemma pretty_N_go_digits (x : N) :
  forall s : string,
    Forall (fun c => Ascii.isdigit c = true) (lit s) ->
    Forall (fun c => Ascii.isdigit c = true) (lit (pretty_N_go x s)).
Proof.
  induction (N.lt_wf_0 x) as [x _ IH]. intros s Hs.
  destruct (decide (x = 0)) as [->|Hx]; [by rewrite pretty_N_go_0|].
  rewrite pretty_N_go_step by lia. apply IH.
  - apply N.div_lt; lia.
  - unfold lit. simpl. constructor; [apply pretty_N_char_digit|exact Hs].
Qed.

(** [str(counter)] is made of decimal digits. *)
Lemma str_of_nat_digits (n : nat) :
  Forall (fun c => Ascii.isdigit c = true) (str_of_nat n).
Proof.
  unfold str_of_nat, pretty, pretty_nat, pretty, pretty_N.
  destruct (decide (N.of_nat n = 0)).
  - repeat constructor.
  - apply pretty_N_go_digits. constructor.
Qed.

Lemma str_of_nat_no_slash (n : nat) : SLASH ∉ str_of_nat n.
Proof.
  intros Hin. pose proof (str_of_nat_digits n) as H.
  rewrite Forall_forall in H. specialize (H SLASH Hin). discriminate.
Qed.

Lemma candidate_join (pdf_path T : pystr) (k : nat) :
  Spec.candidate pdf_path T k
  = PosixPath.join (PosixPath.dirname pdf_path) (new_basename T k).
Proof. by destruct k. Qed.

Lemma new_basename_no_slash (T : pystr) (k : nat) :
  SLASH ∉ T -> SLASH ∉ new_basename T k.
Proof.
  intros HT. destruct k as [|k]; unfold new_basename.
  - rewrite elem_of_app. intros [?|H]; [done|]. vm_compute in H.
    apply list_elem_of_In in H. simpl in H. intuition discriminate.
  - rewrite !elem_of_app. intros [?|[H|[H|H]]]; [done| |by apply str_of_nat_no_slash in H|].
    + apply list_elem_of_In in H. simpl in H. intuition discriminate.
    + apply list_elem_of_In in H. simpl in H. intuition discriminate.
Qed.

(** The path the loop settles on is one of the candidates and is free. *)
Lemma target_path_free (files : gmap pystr entry) (pdf_path T : pystr) :
  files !! target_path files pdf_path T = None
  /\ exists k, target_path files pdf_path T = Spec.candidate pdf_path T k.
Proof.
  unfold target_path.
  destruct (free_path_total files (PosixPath.dirname pdf_path) T
              (PosixPath.join (PosixPath.dirname pdf_path) (T ++ lit ".pdf")))
    as [q Hq].
  rewrite Hq. simpl.
  apply free_path_first in Hq as [Hfree [->|(_ & k & Hk & -> & _)]].
  - split; [done|]. by exists 0%nat.
  - split; [done|]. exists k. destruct k; [lia|done].
Qed.


(** X5. Whatever title was extracted, a renamed file stays in the directory
    it was in, under the name [T.pdf] or [T_k.pdf] for the sanitized title
    [T]: the new path cannot leave the directory. *)
Theorem rename_stays_in_directory (U : unicode) (files : gmap pystr entry)
    (pdf_path title : pystr) :
  Ascii.faithful U ->
  PosixPath.dirname (target_path files pdf_path (sanitize_filename U title))
  = PosixPath.dirname pdf_path
  /\ exists k,
       PosixPath.basename (target_path files pdf_path (sanitize_filename U title))
       = new_basename (sanitize_filename U title) k.
Proof.
  intros HU. set (T := sanitize_filename U title).
  destruct (target_path_free files pdf_path T) as [_ [k ->]].
  rewrite candidate_join.
  assert (SLASH ∉ new_basename T k) as Hname.
  { apply new_basename_no_slash, SanitizeProps.sanitize_filename_no_slash, HU. }
  split.
  - apply PathProps.dirname_join; [apply PathProps.dirname_dir_form|done].
  - exists k. by apply PathProps.basename_join.
Qed.

Lemma rename_stays_in_directory_witness :
  PosixPath.dirname
    (target_path (fs Samples.crowded) (lit "/d/x.pdf")
       (sanitize_filename Ascii.tables Fixtures.ESCAPING_TITLE))
  = PosixPath.dirname (lit "/d/x.pdf")
  /\ exists k,
       PosixPath.basename
         (target_path (fs Samples.crowded) (lit "/d/x.pdf")
            (sanitize_filename Ascii.tables Fixtures.ESCAPING_TITLE))
       = new_basename (sanitize_filename Ascii.tables Fixtures.ESCAPING_TITLE) k.
Proof.
  apply (rename_stays_in_directory Ascii.tables (fs Samples.crowded)
           (lit "/d/x.pdf") Fixtures.ESCAPING_TITLE).
  split; reflexivity.
Defined.








End RenameProps.

(** ** Title extraction, further *)

Module TitleProps.
Import BatchRename TitleFacts.

Lemma Qgt_bool_lt (a b : Q) : Qgt_bool a b = true <-> (b < a)%Q.
Proof.
  unfold Qgt_bool. rewrite negb_true_iff. split.
  - intros H. apply Qnot_le_lt. intros Hle. apply Qle_bool_iff in Hle. congruence.
  - intros H. apply not_true_is_false. intros Hle. apply Qle_bool_iff in Hle.
    by apply Qlt_not_le in H.
Qed.

(** X8. A page is given the title of its first qualifying line as soon as
    that line is among its first ten non-blank lines; the layout of the page
    is not consulted then, so a page whose layout cannot be read still yields
    the title. *)
Theorem line_scan_ignores_layout (U : unicode) (pg : page) (text line : pystr)
    (i : nat) :
  get_text pg = Ok text ->
  (i < 10)%nat ->
  stripped_lines U text !! i = Some line ->
  Spec.qualifies U line = true ->
  (forall j l, (j < i)%nat -> stripped_lines U text !! j = Some l ->
               Spec.qualifies U l = false) ->
  scan_page U pg = Ok (Some line).
Proof.
  intros Htext Hi Hline Hq Hbefore.
  assert (Spec.line_title U text = Some line) as Hfound.
  { apply line_title_first. exists i. done. }
  unfold scan_page. rewrite Htext. simpl. rewrite first_title_line_find.
  unfold Spec.line_title in Hfound. by rewrite Hfound.
Qed.

Lemma line_scan_ignores_layout_witness :
  scan_page Ascii.tables Fixtures.opaque_page
  = Ok (Some (lit "An Introduction to Things")).
Proof.
  apply (line_scan_ignores_layout Ascii.tables Fixtures.opaque_page
           (lit "12345678901234567890
Page 3 of the proceedings
An Introduction to Things") (lit "An Introduction to Things") 2).
  - reflexivity.
  - lia.
  - vm_compute. reflexivity.
  - vm_compute. reflexivity.
  - intros [|[|j]] l Hj Hl; [| |lia]; vm_compute in Hl; injection Hl as <-;
      vm_compute; reflexivity.
Defined.

(** X9. When no line of a page qualifies, the page yields a title exactly
    when one of its spans is set larger than 11; the title is then the text of
    a span that no span of the page exceeds in size. *)
Theorem font_fallback_picks_largest (U : unicode) (pg : page) (text : pystr)
    (blocks : list block) :
  get_text pg = Ok text ->
  first_title_line U (take 10 (stripped_lines U text)) = None ->
  get_text_dict_blocks pg = Ok blocks ->
  exists r,
    scan_page U pg = Ok r
    /\ match r with
       | Some t =>
           exists size,
             In (t, size) (font_sizes blocks)
             /\ (11 < size)%Q
             /\ forall sp, In sp (font_sizes blocks) -> (snd sp <= size)%Q
       | None => forall sp, In sp (font_sizes blocks) -> (snd sp <= 11)%Q
       end.
Proof.
  intros Htext Hnone Hblocks. unfold scan_page. rewrite Htext. simpl.
  rewrite Hnone, Hblocks. simpl.
  destruct (font_sizes blocks) as [|x r] eqn:Hspans.
  { exists None. split; [done|]. intros sp []. }
  destruct (max_by_size_first r x) as (Hxm & Hall & Hpos). simpl in Hxm, Hall, Hpos.
  set (m := max_by_size x r) in *.
  assert (In m (x :: r)) as Hin.
  { destruct Hpos as [Heq|(_ & pre & post & Hr & _)]; [rewrite Heq; by left|].
    right. rewrite Hr. apply in_or_app. right. by left. }
  assert (forall sp, In sp (x :: r) -> (snd sp <= snd m)%Q) as Hmax.
  { intros sp [<-|Hsp]; apply Qle_bool_iff; auto. }
  destruct (Qgt_bool (snd m) 11) eqn:Hbig.
  - exists (Some (fst m)). split; [done|]. exists (snd m).
    split; [by destruct m|]. split; [by apply Qgt_bool_lt|done].
  - exists None. split; [done|]. intros sp Hsp.
    apply Qle_trans with (snd m); [by apply Hmax|].
    apply Qle_bool_iff. by apply not_qgt_le.
Qed.

Lemma font_fallback_picks_largest_witness :
  exists r,
    scan_page Ascii.tables Fixtures.headline_page = Ok r
    /\ match r with
       | Some t =>
           exists size,
             In (t, size) (font_sizes Fixtures.headline_blocks)
             /\ (11 < size)%Q
             /\ forall sp, In sp (font_sizes Fixtures.headline_blocks) ->
                           (snd sp <= size)%Q
       | None =>
           forall sp, In sp (font_sizes Fixtures.headline_blocks) -> (snd sp <= 11)%Q
       end.
Proof.
  apply (font_fallback_picks_largest Ascii.tables Fixtures.headline_page (lit "Vol. 3")).
  - reflexivity.
  - vm_compute. reflexivity.
  - reflexivity.
Defined.

(** On a tie the span that comes first wins. *)
Example first_of_the_largest :
  scan_page Ascii.tables Fixtures.headline_page = Ok (Some (lit "Big")).
Proof. vm_compute. reflexivity. Qed.

End TitleProps.

(** ** Summarizing, further *)

Module ReadProps.
Import BatchRead ReadFacts Props.

(** X10. [summarize_text] never lets an exception out and never tries twice:
    whatever [requests.post] raises or returns, one request is posted, no file
    changes, and the result is [None] unless the body of the response holds a
    reply at [choices[0].message.content], which is then the result. *)
Theorem summarize_text_single_attempt (E : env) (C : config) (text : pystr) (w : world) :
  exists (v : json) (evs : list event),
    summarize_text E C text w
    = (Ok v, {| fs := fs w;
                log := (log w ++ [Posted (summary_request C text)]) ++ evs |})
    /\ (forall r, Posted r ∉ evs)
    /\ (v <> JNull ->
        exists resp b,
          requests_post E (summary_request C text) = Ok resp
          /\ body resp = Some b
          /\ reply_content b = Ok v).
Proof.
  unfold summarize_text, try_except, bind, post, lift, print, emit, ret. simpl.
  destruct (requests_post E (summary_request C text)) as [resp|e] eqn:Hpost; simpl.
  - unfold response_json. destruct (body resp) as [b|] eqn:Hbody; simpl.
    + destruct (reply_content b) as [v|e] eqn:Hreply; simpl.
      * exists v, []. rewrite app_nil_r. split; [done|].
        split; [intros r Hr; by apply elem_of_nil in Hr|]. eauto.
      * exists JNull, [Printed (MsgApiFailed e)]. split; [done|].
        split; [|done]. intros r Hr. apply list_elem_of_singleton in Hr. discriminate.
    + exists JNull, [Printed (MsgApiFailed JSONDecodeError)]. split; [done|].
      split; [|done]. intros r Hr. apply list_elem_of_singleton in Hr. discriminate.
  - exists JNull, [Printed (MsgApiFailed e)]. split; [done|].
    split; [|done]. intros r Hr. apply list_elem_of_singleton in Hr. discriminate.
Qed.




(** What a [Success] has done. *)
Lemma process_single_file_success (E : env) (C : config) (pdf_path : pystr)
    (w w' : world) :
  process_single_file E C pdf_path w = (Ok Success, w') ->
  fs w !! md_path_of pdf_path = None
  /\ exists text w1 s w2,
       parse_pdf E pdf_path w = (Ok (Some text), w1)
       /\ summarize_text E C text w1 = (Ok (JStr s), w2)
       /\ s <> []
       /\ fs w' = <[md_path_of pdf_path :=
                      File ((HEADER_TITLE ++ header_source pdf_path) ++ s)]> (fs w).
Proof.
  intros Hrun.
  destruct (fs w !! md_path_of pdf_path) as [e0|] eqn:Hmd.
  { rewrite process_single_file_skips in Hrun by eauto. discriminate. }
  split; [done|].
  unfold process_single_file, bind in Hrun.
  rewrite path_exists_absent in Hrun by done.
  destruct (parse_pdf_run E pdf_path w) as (t & w1 & Hparse & Hfs1).
  rewrite Hparse in Hrun. destruct t as [[|c0 text]|]; try discriminate.
  destruct (summarize_text_fs E C (c0 :: text) w1) as (v & w2 & Hsum & Hfs2).
  rewrite Hsum in Hrun. destruct (truthy v) eqn:Htruthy; simpl in Hrun; [|discriminate].
  destruct (save_block_run E (md_path_of pdf_path) pdf_path v w2)
    as (o & w0 & Hsave & Hcases); [by rewrite Hfs2, Hfs1|].
  rewrite Hsave in Hrun. injection Hrun as -> ->.
  destruct Hcases as [(_ & Ho & _)|(_ & c & Hfs & Hfull)]; [discriminate|].
  destruct (Hfull eq_refl) as (s & -> & ->).
  exists (c0 :: text), w1, s, w2. split; [done|]. split; [done|]. split.
  - intros ->. discriminate.
  - by rewrite Hfs, Hfs2, Hfs1.
Qed.

(** X12. After a [Success] the summary file holds the title line, the line
    naming the source file and the reply of the endpoint, in this order and
    nothing else; the reply is the non-empty string [summarize_text] returned
    for the parsed text; no other path has changed. *)
Theorem success_writes_whole_summary (E : env) (C : config) (pdf_path : pystr)
    (w w' : world) :
  process_single_file E C pdf_path w = (Ok Success, w') ->
  exists text w1 s w2,
    parse_pdf E pdf_path w = (Ok (Some text), w1)
    /\ summarize_text E C text w1 = (Ok (JStr s), w2)
    /\ s <> []
    /\ fs w !! md_path_of pdf_path = None
    /\ fs w' !! md_path_of pdf_path
       = Some (File (HEADER_TITLE ++ header_source pdf_path ++ s))
    /\ forall q, q <> md_path_of pdf_path -> fs w' !! q = fs w !! q.
Proof.
  intros Hrun.
  destruct (process_single_file_success E C pdf_path w w' Hrun)
    as (Hfree & text & w1 & s & w2 & Hparse & Hsum & Hs & Hfs).
  exists text, w1, s, w2. repeat split; try done.
  - rewrite Hfs, lookup_insert_eq. by rewrite <- app_assoc.
  - intros q Hq. rewrite Hfs. by rewrite lookup_insert_ne.
Qed.

Lemma success_writes_whole_summary_witness :
  exists text w1 s w2,
    parse_pdf Samples.working (lit "/d/b.pdf") Samples.half_done = (Ok (Some text), w1)
    /\ summarize_text Samples.working shipped text w1 = (Ok (JStr s), w2)
    /\ s <> []
    /\ fs Samples.half_done !! md_path_of (lit "/d/b.pdf") = None
    /\ fs (snd (process_single_file Samples.working shipped (lit "/d/b.pdf")
                  Samples.half_done)) !! md_path_of (lit "/d/b.pdf")
       = Some (File (HEADER_TITLE ++ header_source (lit "/d/b.pdf") ++ s))
    /\ forall q, q <> md_path_of (lit "/d/b.pdf") ->
                 fs (snd (process_single_file Samples.working shipped (lit "/d/b.pdf")
                            Samples.half_done)) !! q
                 = fs Samples.half_done !! q.
Proof.
  apply (success_writes_whole_summary Samples.working shipped (lit "/d/b.pdf")
           Samples.half_done).
  vm_compute. reflexivity.
Defined.

(** X13. A file that was summarized with [Success] is [Skipped] by any later
    run, whatever the parser and the endpoint then do, and that run changes
    nothing. *)
Theorem rerun_skips_finished_file (E E' : env) (C C' : config) (pdf_path : pystr)
    (w w1 : world) :
  process_single_file E C pdf_path w = (Ok Success, w1) ->
  process_single_file E' C' pdf_path w1 = (Ok Skipped, w1).
Proof.
  intros Hrun.
  destruct (process_single_file_success E C pdf_path w w1 Hrun)
    as (_ & _ & _ & s & _ & _ & _ & _ & Hfs).
  apply process_single_file_skips. rewrite Hfs, lookup_insert_eq. by eexists.
Qed.

Lemma rerun_skips_finished_file_witness :
  process_single_file Samples.offline shipped (lit "/d/b.pdf")
    (snd (process_single_file Samples.working shipped (lit "/d/b.pdf") Samples.half_done))
  = (Ok Skipped,
     snd (process_single_file Samples.working shipped (lit "/d/b.pdf") Samples.half_done)).
Proof.
  apply (rerun_skips_finished_file Samples.working Samples.offline shipped shipped
           (lit "/d/b.pdf") Samples.half_done).
  vm_compute. reflexivity.
Defined.





(** X16. The summary of [dir/stem.ext] is [dir/stem.md]: the derived path
    keeps the directory and the stem and replaces the extension, whatever its
    letter case, provided the stem is not made of dots alone. *)
Theorem summary_sits_beside_pdf (dirpath stem ext : pystr) :
  SLASH ∉ stem -> SLASH ∉ ext -> DOT ∉ ext ->
  existsb (fun c => negb (c =? DOT)) stem = true ->
  md_path_of (PosixPath.join dirpath (stem ++ DOT :: ext))
  = PosixPath.join dirpath (stem ++ lit ".md").
Proof.
  intros Hstem Hext Hdot Hreal.
  destruct (PathProps.join_is_append dirpath) as (pre & Hpre & _ & Hjoin).
  rewrite !Hjoin.
  - unfold md_path_of. rewrite PathProps.splitext_stem by done. simpl.
    by rewrite <- app_assoc.
  - rewrite elem_of_app. intros [?|H]; [done|].
    apply list_elem_of_In in H. simpl in H. intuition discriminate.
  - rewrite elem_of_app, elem_of_cons. intros [?|[?|?]]; done.
Qed.

Lemma summary_sits_beside_pdf_witness :
  md_path_of (PosixPath.join (lit "/d") (lit "a.b" ++ DOT :: lit "PDF"))
  = PosixPath.join (lit "/d") (lit "a.b" ++ lit ".md").
Proof.
  apply (summary_sits_beside_pdf (lit "/d") (lit "a.b") (lit "PDF")).
  - vm_compute. intros H. apply list_elem_of_In in H. simpl in H. intuition discriminate.
  - vm_compute. intros H. apply list_elem_of_In in H. simpl in H. intuition discriminate.
  - vm_compute. intros H. apply list_elem_of_In in H. simpl in H. intuition discriminate.
  - reflexivity.
Defined.

(** A file named [.pdf] has no extension to replace. *)
Example hidden_pdf_keeps_its_name :
  md_path_of (lit "/d/.pdf") = lit "/d/.pdf.md".
Proof. vm_compute. reflexivity. Qed.

End ReadProps.

(** ** The aggregator *)

Module AggregatorProps.
Import MdSummarize Props.

#[local] Arguments startswith : simpl never.
#[local] Arguments lit : simpl never.

(** The loop of [read_markdown_files]: it never raises, changes no file,
    and appends one entry for each path it keeps, in order. *)
Lemma read_files_effect (E : env) (paths : list pystr) :
  forall (acc : list md_file) (w : world),
  exists (new : list md_file) (w' : world),
    read_files E paths acc w = (Ok (acc ++ new), w')
    /\ fs w' = fs w
    /\ map path new = filter (fun p => kept_summary E (fs w) p = true) paths
    /\ Forall (fun f => filename f = PosixPath.basename (path f)
                        /\ fs w !! path f = Some (File (content f))) new.
Proof.
  induction paths as [|p rest IH]; intros acc w.
  - exists [], w. simpl. rewrite app_nil_r. done.
  - simpl. rewrite filter_cons.
    destruct (startswith (PosixPath.basename p) (lit "research_report")) eqn:Hname.
    + assert (kept_summary E (fs w) p = false) as Hk
        by (unfold kept_summary; by rewrite Hname).
      unfold bind, print, emit. simpl.
      set (w0 := {| fs := fs w; log := _ |}).
      destruct (IH acc w0) as (new & w' & Hrun & Hfs & Hpaths & Hfields).
      rewrite Hrun. exists new, w'. rewrite decide_False by (by rewrite Hk). done.
    + unfold bind, try_except, read_text, print, emit, ret. simpl.
      destruct (fs w !! p) as [[|c]|] eqn:Hp; simpl.
      * assert (kept_summary E (fs w) p = false) as Hk
          by (unfold kept_summary; by rewrite Hname, Hp).
        set (w0 := {| fs := fs w; log := _ |}).
        destruct (IH acc w0) as (new & w' & Hrun & Hfs & Hpaths & Hfields).
        rewrite Hrun. exists new, w'. rewrite decide_False by (by rewrite Hk). done.
      * destruct (read_denied E p) eqn:Hden; simpl.
        -- assert (kept_summary E (fs w) p = false) as Hk
             by (unfold kept_summary; by rewrite Hname, Hp, Hden).
           set (w0 := {| fs := fs w; log := _ |}).
           destruct (IH acc w0) as (new & w' & Hrun & Hfs & Hpaths & Hfields).
           rewrite Hrun. exists new, w'. rewrite decide_False by (by rewrite Hk). done.
        -- assert (kept_summary E (fs w) p = true) as Hk
             by (unfold kept_summary; by rewrite Hname, Hp, Hden).
           set (w0 := {| fs := fs w; log := _ |}).
           set (f := {| filename := PosixPath.basename p; content := c; path := p |}).
           destruct (IH (acc ++ [f]) w0) as (new & w' & Hrun & Hfs & Hpaths & Hfields).
           rewrite Hrun. exists (f :: new), w'. rewrite decide_True by done.
           split; [by rewrite <- app_assoc|]. split; [done|].
           split; [simpl; by f_equal|]. constructor; [done|exact Hfields].
      * assert (kept_summary E (fs w) p = false) as Hk
          by (unfold kept_summary; by rewrite Hname, Hp).
        set (w0 := {| fs := fs w; log := _ |}).
        destruct (IH acc w0) as (new & w' & Hrun & Hfs & Hpaths & Hfields).
        rewrite Hrun. exists new, w'. rewrite decide_False by (by rewrite Hk). done.
Qed.


Lemma reply_content_exn (v : json) (e : exn) :
  reply_content v = Raise e -> e = KeyError \/ e = IndexError \/ e = TypeError.
Proof.
  assert (forall v k e, getitem v k = Raise e -> e = KeyError \/ e = TypeError) as Hget.
  { intros v0 k e0. unfold getitem. destruct v0; try (intros [= <-]; tauto).
    destruct (dict_get members k); [discriminate|]. intros [= <-]. tauto. }
  assert (forall v e, getitem0 v = Raise e ->
                      e = KeyError \/ e = IndexError \/ e = TypeError) as Hget0.
  { intros v0 e0. unfold getitem0.
    destruct v0 as [| | |[|]|[|]|]; try discriminate; intros [= <-]; tauto. }
  unfold reply_content, rbind.
  destruct (getitem v (lit "choices")) as [choices|e1] eqn:H1.
  2:{ intros [= <-]. destruct (Hget _ _ _ H1); tauto. }
  destruct (getitem0 choices) as [first|e2] eqn:H2.
  2:{ intros [= <-]. by apply Hget0 in H2. }
  destruct (getitem first (lit "message")) as [message|e3] eqn:H3.
  2:{ intros [= <-]. destruct (Hget _ _ _ H3); tauto. }
  intros H4. destruct (Hget _ _ _ H4); tauto.
Qed.

(** [call_llm_api] changes no file, and what it lets out when the transport
    raises request exceptions only is an [IndexError] or a [TypeError]. *)
Lemma call_llm_api_effect (E : env) (A : analyzer) (prompt : pystr) (w : world) :
  (forall r e, requests_post E r = Raise e -> is_RequestException e = true) ->
  exists (r : result json) (w' : world),
    call_llm_api E A prompt w = (r, w')
    /\ fs w' = fs w
    /\ ((exists v, r = Ok v) \/ r = Raise IndexError \/ r = Raise TypeError).
Proof.
  intros Htransport.
  unfold call_llm_api, try_except, bind, post, lift, print, emit, ret. simpl.
  destruct (requests_post E (llm_request A prompt)) as [resp|e] eqn:Hpost; simpl.
  - destruct (raise_for_status resp) as [[]|e] eqn:Hstatus; simpl.
    + unfold response_json. destruct (body resp) as [b|]; simpl.
      * destruct (reply_content b) as [v|e] eqn:Hreply; simpl.
        -- eexists _, _. split; [reflexivity|]. split; [done|]. left. eauto.
        -- destruct (reply_content_exn b e Hreply) as [-> | [-> | ->]]; simpl;
             eexists _, _; (split; [reflexivity|]); (split; [done|]); eauto.
      * eexists _, _. split; [reflexivity|]. split; [done|]. left. eauto.
    + unfold raise_for_status in Hstatus.
      destruct ((400 <=? status_code resp) && (status_code resp <? 600));
        [|discriminate].
      injection Hstatus as <-. simpl.
      eexists _, _. split; [reflexivity|]. split; [done|]. left. eauto.
  - rewrite (Htransport _ _ Hpost). simpl.
    eexists _, _. split; [reflexivity|]. split; [done|]. left. eauto.
Qed.

(** X18. With a transport that raises request exceptions only,
    [call_llm_api] either returns or raises [IndexError] or [TypeError]: a
    time-out, a refused connection, a 4xx or 5xx status, a body that is not
    JSON and a missing key never reach the caller, a reply whose shape is wrong
    in another way does. No file changes in either case. *)
Theorem call_llm_api_lets_out_shape_errors (E : env) (A : analyzer) (prompt : pystr)
    (w : world) :
  (forall r e, requests_post E r = Raise e -> is_RequestException e = true) ->
  fs (snd (call_llm_api E A prompt w)) = fs w
  /\ ((exists v, fst (call_llm_api E A prompt w) = Ok v)
      \/ fst (call_llm_api E A prompt w) = Raise IndexError
      \/ fst (call_llm_api E A prompt w) = Raise TypeError).
Proof.
  intros Htransport.
  destruct (call_llm_api_effect E A prompt w Htransport) as (r & w' & -> & Hfs & Hr).
  done.
Qed.

Lemma call_llm_api_lets_out_shape_errors_witness :
  fs (snd (call_llm_api (Samples.with_endpoint Samples.offline Samples.no_choices)
             (new_analyzer (lit "k") [] (lit "m")) (lit "hello") Samples.summaries))
  = fs Samples.summaries
  /\ ((exists v,
         fst (call_llm_api (Samples.with_endpoint Samples.offline Samples.no_choices)
                (new_analyzer (lit "k") [] (lit "m")) (lit "hello") Samples.summaries)
         = Ok v)
      \/ fst (call_llm_api (Samples.with_endpoint Samples.offline Samples.no_choices)
                (new_analyzer (lit "k") [] (lit "m")) (lit "hello") Samples.summaries)
         = Raise IndexError
      \/ fst (call_llm_api (Samples.with_endpoint Samples.offline Samples.no_choices)
                (new_analyzer (lit "k") [] (lit "m")) (lit "hello") Samples.summaries)
         = Raise TypeError).
Proof.
  apply (call_llm_api_lets_out_shape_errors
           (Samples.with_endpoint Samples.offline Samples.no_choices)).
  intros r e H. vm_compute in H. discriminate.
Defined.








(** [call_llm_api] changes no file, whatever happens. *)
Lemma call_llm_api_fs (E : env) (A : analyzer) (prompt : pystr) (w : world) :
  fs (snd (call_llm_api E A prompt w)) = fs w.
Proof.
  unfold call_llm_api, try_except, bind, post, lift, print, emit, ret. simpl.
  destruct (requests_post E (llm_request A prompt)) as [resp|e]; simpl.
  - destruct (raise_for_status resp) as [[]|e]; simpl.
    + destruct (rbind (response_json resp) reply_content) as [v|e]; simpl; [done|].
      destruct (is_RequestException e || is_KeyError e); [|done].
      by destruct (is_RequestException e).
    + destruct (is_RequestException e || is_KeyError e); [|done].
      by destruct (is_RequestException e).
  - destruct (is_RequestException e || is_KeyError e); [|done].
    by destruct (is_RequestException e).
Qed.

(** [save_report] never raises; it changes nothing, or leaves a file at the
    output path; it is the report when the value is an encodable string and
    nothing is refused. *)
Lemma save_report_effect (E : env) (report : json) (output_path : pystr) (w : world) :
  exists w',
    save_report E report output_path w = (Ok tt, w')
    /\ (fs w' = fs w \/ exists c, fs w' = <[output_path := File c]> (fs w))
    /\ (forall s,
          report = JStr s ->
          open_w_denied E output_path = false ->
          fs w !! output_path <> Some Dir ->
          utf8_encodable s = true ->
          write_denied E output_path s = false ->
          fs w' = <[output_path := File s]> (fs w)).
Proof.
  unfold save_report, try_except, bind, open_w, print, emit, ret.
  destruct (open_w_denied E output_path) eqn:Hopen; simpl.
  { eexists. split; [reflexivity|]. split; [by left|]. intros; discriminate. }
  assert (forall l,
            exists w',
              (match file_write E output_path report
                       {| fs := <[output_path := File []]> (fs w); log := l |} with
               | (Ok _, w1) => (Ok tt, {| fs := fs w1;
                                         log := log w1 ++ [Printed (MsgSaved output_path)] |})
               | (Raise e, w1) =>
                   (Ok tt, {| fs := fs w1; log := log w1 ++ [Printed (MsgSaveFailed e)] |})
               end) = (Ok tt, w')
              /\ (exists c, fs w' = <[output_path := File c]> (fs w))
              /\ (forall s, report = JStr s -> utf8_encodable s = true ->
                            write_denied E output_path s = false ->
                            fs w' = <[output_path := File s]> (fs w))) as Hwrite.
  { intros l. rewrite ReadFacts.file_write_opened.
    destruct report as [| | |s| |]; simpl;
      try (eexists; split; [reflexivity|]; split; [by eexists|]; intros; discriminate).
    destruct (utf8_encodable s) eqn:Henc; simpl.
    2:{ eexists. split; [reflexivity|]. split; [by eexists|].
        intros s0 [= <-]. congruence. }
    destruct (write_denied E output_path s) eqn:Hden; simpl.
    { eexists. split; [reflexivity|]. split; [by eexists|].
      intros s0 [= <-]. congruence. }
    eexists. split; [reflexivity|]. split; [by eexists|].
    intros s0 [= <-] _ _. done. }
  destruct (fs w !! output_path) as [[|c0]|] eqn:Hthere; simpl.
  - eexists. split; [reflexivity|]. split; [by left|]. intros; congruence.
  - destruct (Hwrite (log w ++ [OpenedForWrite output_path]))
      as (w' & Hrun & Hfs & Hfull).
    simpl in Hrun.
    destruct (file_write E output_path report _) as [[[]|e] w1]; simpl in *;
      exists w'; (split; [exact Hrun|]); (split; [by right|]); intros; eauto.
  - destruct (Hwrite (log w ++ [OpenedForWrite output_path]))
      as (w' & Hrun & Hfs & Hfull).
    simpl in Hrun.
    destruct (file_write E output_path report _) as [[[]|e] w1]; simpl in *;
      exists w'; (split; [exact Hrun|]); (split; [by right|]); intros; eauto.
Qed.


Lemma read_markdown_files_run (E : env) (directory : pystr) (w : world) :
  exists (md_files : list md_file) (w1 : world),
    read_markdown_files E directory w = (Ok md_files, w1)
    /\ fs w1 = fs w
    /\ map path md_files
       = filter (fun p => kept_summary E (fs w) p = true) (glob_md E (fs w) directory)
    /\ Forall (fun f => filename f = PosixPath.basename (path f)
                        /\ fs w !! path f = Some (File (content f))) md_files.
Proof.
  unfold read_markdown_files.
  destruct (read_files_effect E (glob_md E (fs w) directory) [] w)
    as (new & w' & Hrun & Hfs & Hpaths & Hfields).
  by exists new, w'.
Qed.


(** X20. Whatever happens in a run of the aggregator, the only path that can
    differ afterwards is the timestamped report path: the summaries it reads
    and every other file are left as they were. *)
Theorem main_touches_only_report (E : env) (C : config) (w : world) (q : pystr) :
  q <> report_path E C ->
  fs (snd (main E C w)) !! q = fs w !! q.
Proof.
  intros Hq. unfold main, bind, path_isdir.
  destruct (fs w !! MARKDOWN_DIRECTORY C) as [[|]|]; simpl; try done.
  destruct (str_eqb (API_KEY C) (lit "your-api-key-here")); [done|].
  unfold report_run, bind, print, emit.
  match goal with
  | |- context [read_markdown_files ?E0 ?d0 ?w0] =>
      destruct (read_markdown_files_run E0 d0 w0)
        as (md_files & w1 & Hread & Hfs1 & _); rewrite Hread
  end.
  cbn [fs] in Hfs1.
  destruct md_files as [|f0 rest]; [cbn [snd fs]; by rewrite Hfs1|].
  unfold analyze_papers, bind, print, emit.
  match goal with
  | |- context [call_llm_api ?E0 ?A0 ?p0 ?w0] =>
      pose proof (call_llm_api_fs E0 A0 p0 w0) as Hfs3;
      destruct (call_llm_api E0 A0 p0 w0) as [[report|e] w3]
  end; cbn [snd fs] in Hfs3.
  2:{ cbn [snd]. by rewrite Hfs3, Hfs1. }
  assert (forall report' : json,
            fs (snd ((if negb (truthy report')
                      then print MsgNotSaved
                      else (save_report E report' (report_path E C) ;;; print MsgDone)%py)
                       w3)) !! q = fs w !! q) as Htail.
  { intros report'. destruct (truthy report'); simpl.
    - unfold bind, print, emit.
      destruct (save_report_effect E report' (report_path E C) w3)
        as (w4 & Hsave & [Hfs4|[c Hfs4]] & _); rewrite Hsave; cbn [snd fs];
        rewrite Hfs4.
      + by rewrite Hfs3, Hfs1.
      + rewrite lookup_insert_ne by done. by rewrite Hfs3, Hfs1.
    - by rewrite Hfs3, Hfs1. }
  destruct (truthy report) eqn:Htruthy.
  - unfold lift. destruct (add_str report _) as [report'|e].
    + apply (Htail report').
    + cbn [snd]. by rewrite Hfs3, Hfs1.
  - apply (Htail report).
Qed.

Lemma main_touches_only_report_witness :
  fs (snd (main Fixtures.answering_env Samples.pointed Fixtures.with_stale_report))
    !! lit "/d/x.md"
  = fs Fixtures.with_stale_report !! lit "/d/x.md".
Proof.
  apply (main_touches_only_report Fixtures.answering_env Samples.pointed
           Fixtures.with_stale_report (lit "/d/x.md")).
  vm_compute. discriminate.
Defined.





(** The scenario of the specification: the stale report is not read, and the
    appendix lists the two summaries as papers 1 and 2. *)
Example stale_report_is_left_out :
  fst (read_markdown_files Fixtures.stale_env (lit "/d") Fixtures.with_stale_report)
  = Ok Fixtures.two_papers
  /\ appendix_entries 1 Fixtures.two_papers
     = [NL] ++ appendix_label 1 (lit "x.md") ++ [NL]
       ++ [NL] ++ appendix_label 2 (lit "y.md") ++ [NL].
Proof. split; vm_compute; reflexivity. Qed.

End AggregatorProps.

(** ** Requests *)

Module CostProps.
Import BatchRead Props.

#[local] Arguments file_write : simpl never.

Lemma posted_app (a b : list event) : posted (a ++ b) = (posted a + posted b)%nat.
Proof. unfold posted. by rewrite filter_app, length_app. Qed.


Lemma file_write_log (E : env) (md : pystr) (v : json) (w : world) :
  exists (r : result unit) (w' : world) (evs : list event),
    file_write E md v w = (r, w') /\ log w' = log w ++ evs /\ posted evs = 0%nat.
Proof.
  unfold file_write. destruct v; try (eexists _, _, []; rewrite app_nil_r; done).
  destruct (negb (utf8_encodable s)); [eexists _, _, []; rewrite app_nil_r; done|].
  destruct (write_denied E md s); [eexists _, _, []; rewrite app_nil_r; done|].
  destruct (fs w !! md) as [[|old]|]; try (eexists _, _, []; rewrite app_nil_r; done).
  eexists _, _, _. split; [reflexivity|]. split; reflexivity.
Qed.






Lemma read_files_log (E : env) (paths : list pystr) :
  forall (acc : list MdSummarize.md_file) (w : world),
  exists evs,
    log (snd (MdSummarize.read_files E paths acc w)) = log w ++ evs
    /\ posted evs = 0%nat.
Proof.
  induction paths as [|p rest IH]; intros acc w.
  - exists []. by rewrite app_nil_r.
  - cbn [MdSummarize.read_files].
    destruct (startswith (PosixPath.basename p) (lit "research_report")).
    + unfold bind, print, emit.
      match goal with
      | |- context [MdSummarize.read_files ?E0 ?l0 ?a0 ?w0] =>
          destruct (IH a0 w0) as (evs & Hl & Hp)
      end.
      eexists. rewrite Hl. cbn [log]. rewrite <- app_assoc. split; [reflexivity|].
      by rewrite posted_app, Hp.
    + unfold bind, try_except, read_text, print, emit, ret.
      destruct (fs w !! p) as [[|c]|]; [| destruct (read_denied E p) |];
        cbn [is_Exception];
        match goal with
        | |- context [MdSummarize.read_files ?E0 ?l0 ?a0 ?w0] =>
            destruct (IH a0 w0) as (evs & Hl & Hp)
        end;
        eexists; rewrite Hl; cbn [log]; rewrite <- !app_assoc;
        (split; [reflexivity|]); by rewrite !posted_app, Hp.
Qed.

Lemma call_llm_api_log (E : env) (A : MdSummarize.analyzer) (prompt : pystr) (w : world) :
  exists evs,
    log (snd (MdSummarize.call_llm_api E A prompt w)) = log w ++ evs
    /\ posted evs = 1%nat.
Proof.
  unfold MdSummarize.call_llm_api, try_except, bind, post, lift, print, emit, ret.
  destruct (requests_post E (MdSummarize.llm_request A prompt)) as [resp|e].
  - destruct (raise_for_status resp) as [[]|e].
    + destruct (rbind (response_json resp) reply_content) as [v|e].
      * eexists. split; reflexivity.
      * destruct (is_RequestException e || is_KeyError e);
          [destruct (is_RequestException e)|];
          eexists; cbn [snd log]; rewrite <- ?app_assoc; split; reflexivity.
    + destruct (is_RequestException e || is_KeyError e);
        [destruct (is_RequestException e)|];
        eexists; cbn [snd log]; rewrite <- ?app_assoc; split; reflexivity.
  - destruct (is_RequestException e || is_KeyError e);
      [destruct (is_RequestException e)|];
      eexists; cbn [snd log]; rewrite <- ?app_assoc; split; reflexivity.
Qed.

Lemma save_report_log (E : env) (report : json) (output_path : pystr) (w : world) :
  exists evs,
    log (snd (MdSummarize.save_report E report output_path w)) = log w ++ evs
    /\ posted evs = 0%nat.
Proof.
  unfold MdSummarize.save_report, try_except, bind, print, emit.
  assert (exists (r : result unit) (w1 : world) (evs : list event),
             open_w E output_path w = (r, w1) /\ log w1 = log w ++ evs
             /\ posted evs = 0%nat)
    as (r0 & w1 & evs0 & -> & Hl0 & Hp0).
  { unfold open_w. destruct (open_w_denied E output_path);
      [eexists _, _, []; rewrite app_nil_r; done|].
    destruct (fs w !! output_path) as [[|]|];
      try (eexists _, _, []; rewrite app_nil_r; done);
      eexists _, _, _; (split; [reflexivity|]); split; reflexivity. }
  destruct r0 as [[]|e]; cbn [is_Exception].
  2:{ eexists. cbn [snd log]. rewrite Hl0, <- app_assoc. split; [reflexivity|].
      by rewrite posted_app, Hp0. }
  destruct (file_write_log E output_path report w1) as (r1 & w2 & evs1 & -> & Hl1 & Hp1).
  destruct r1 as [[]|e]; cbn [is_Exception];
    eexists; cbn [snd log]; rewrite Hl1, Hl0, <- !app_assoc; (split; [reflexivity|]);
    by rewrite !posted_app, Hp0, Hp1.
Qed.

(** X24. A run of the aggregator posts at most one request, and posts it only
    if the directory exists, the key is not the one the check looks for, and at
    least one summary could be read. *)
Theorem main_posts_at_most_once (E : env) (C : MdSummarize.config) (w : world) :
  exists evs,
    log (snd (MdSummarize.main E C w)) = log w ++ evs
    /\ (posted evs <= 1)%nat
    /\ (posted evs = 1%nat ->
        fs w !! MdSummarize.MARKDOWN_DIRECTORY C = Some Dir
        /\ MdSummarize.API_KEY C <> lit "your-api-key-here"
        /\ exists p, p ∈ glob_md E (fs w) (MdSummarize.MARKDOWN_DIRECTORY C)
                     /\ kept_summary E (fs w) p = true).
Proof.
  unfold MdSummarize.main, bind, path_isdir.
  destruct (fs w !! MdSummarize.MARKDOWN_DIRECTORY C) as [[|c]|] eqn:Hdir; cbn [negb];
    try (eexists; split; [reflexivity|]; split; [by apply Nat.le_0_l|discriminate]).
  unfold str_eqb. case_bool_decide as Hkey;
    [eexists; split; [reflexivity|]; split; [by apply Nat.le_0_l|discriminate]|].
  unfold MdSummarize.report_run, bind, print, emit.
  match goal with
  | |- context [MdSummarize.read_markdown_files ?E0 ?d0 ?w0] =>
      destruct (AggregatorProps.read_markdown_files_run E0 d0 w0)
        as (md_files & w1 & Hread & Hfs1 & Hpaths & _);
      destruct (read_files_log E0 (glob_md E0 (fs w0) d0) [] w0) as (evs0 & Hl0 & Hp0);
      unfold MdSummarize.read_markdown_files in Hread;
      rewrite Hread in Hl0;
      change (MdSummarize.read_markdown_files E0 d0 w0)
        with (MdSummarize.read_files E0 (glob_md E0 (fs w0) d0) [] w0);
      rewrite Hread
  end.
  cbn [snd fs log] in Hl0, Hfs1, Hpaths.
  destruct md_files as [|f0 rest].
  { eexists. cbn [snd log]. rewrite Hl0, <- !app_assoc. split; [reflexivity|].
    rewrite !posted_app, Hp0. split; [by apply Nat.le_0_l|discriminate]. }
  assert (exists p, p ∈ glob_md E (fs w) (MdSummarize.MARKDOWN_DIRECTORY C)
                    /\ kept_summary E (fs w) p = true) as Hkept.
  { exists (MdSummarize.path f0).
    assert (MdSummarize.path f0
            ∈ filter (fun p => kept_summary E (fs w) p = true)
                (glob_md E (fs w) (MdSummarize.MARKDOWN_DIRECTORY C))) as Hin
      by (rewrite <- Hpaths; apply list_elem_of_here).
    apply list_elem_of_filter in Hin. tauto. }
  unfold MdSummarize.analyze_papers, bind, print, emit.
  match goal with
  | |- context [MdSummarize.call_llm_api ?E0 ?A0 ?p0 ?w0] =>
      destruct (call_llm_api_log E0 A0 p0 w0) as (evs1 & Hl1 & Hp1);
      destruct (MdSummarize.call_llm_api E0 A0 p0 w0) as [[report|e] w3]
  end; cbn [snd log] in Hl1.
  2:{ eexists. cbn [snd]. rewrite Hl1, Hl0, <- !app_assoc. split; [reflexivity|].
      rewrite !posted_app, Hp0, Hp1. split; [simpl; lia|done]. }
  assert (forall report' : json,
            exists evs,
              log (snd ((if negb (truthy report')
                         then print MsgNotSaved
                         else (MdSummarize.save_report E report'
                                 (report_path E C) ;;; print MsgDone)%py) w3))
              = log w ++ evs
              /\ posted evs = 1%nat) as Htail.
  { intros report'. destruct (truthy report'); cbn [negb].
    - unfold bind, print, emit.
      destruct (save_report_log E report' (report_path E C) w3) as (evs2 & Hl2 & Hp2).
      destruct (MdSummarize.save_report E report' (report_path E C) w3)
        as [[[]|e] w4]; cbn [snd log] in Hl2 |- *;
        eexists; rewrite ?Hl2, Hl1, Hl0, <- !app_assoc; (split; [reflexivity|]);
        rewrite !posted_app, Hp0, Hp1, ?Hp2; reflexivity.
    - unfold print, emit. eexists. cbn [snd log].
      rewrite Hl1, Hl0, <- !app_assoc. split; [reflexivity|].
      rewrite !posted_app, Hp0, Hp1. reflexivity. }
  destruct (truthy report) eqn:Htruthy.
  - unfold lift. destruct (MdSummarize.add_str report _) as [report'|e].
    + destruct (Htail report') as (evs & Hl & Hp). exists evs.
      split; [exact Hl|]. rewrite Hp. split; [lia|done].
    + eexists. cbn [snd]. rewrite Hl1, Hl0, <- !app_assoc. split; [reflexivity|].
      rewrite !posted_app, Hp0, Hp1. split; [simpl; lia|done].
  - destruct (Htail report) as (evs & Hl & Hp). exists evs.
    unfold ret. split; [exact Hl|]. rewrite Hp. split; [lia|done].
Qed.

End CostProps.
